(** * Notebook orchestration: distributed-training and deployment workflows

    The repository consists of three Jupyter notebooks that assemble calls
    into a vendor SDK and a shell:

    - the BERT training notebook (TensorFlow estimator),
    - the MaskRCNN training notebook (PyTorch estimator),
    - the deployment notebook (model artifact lookup, endpoint, teardown).

    Each code cell is embedded as a function on the notebook state: the
    interpreter's global namespace, the ordered log of requests that left
    the notebook, and the state of the outside world.  The SDK, the shell
    and the platform are not part of the repository; they appear as the
    fields of a [Platform], and statements quantify over every platform
    unless a concrete one is named. *)

From stdpp Require Import base strings list gmap sets pretty.
From Stdlib Require Import ZArith Ascii String.

Set Warnings "-register-all".
Local Open Scope Z_scope.

(** ** Python values that occur in the notebooks *)

Inductive pyval : Type :=
| VNone
| VBool (b : bool)
| VInt (z : Z)
| VFloat (literal : string)   (* a float, kept as the literal's text *)
| VStr (s : string)
| VList (l : list pyval)
| VDict (items : list (string * pyval))   (* insertion order kept *)
| VObj (cls : string) (ref : string).     (* handle to an SDK object *)

Abbreviation kwargs := (list (string * pyval)).

(** Keyword lookup: the last binding of a key wins, as in a dict literal. *)
Fixpoint kw_get (k : string) (kw : kwargs) : option pyval :=
  match kw with
  | [] => None
  | (k', v) :: rest =>
      match kw_get k rest with
      | Some v' => Some v'
      | None => if String.eqb k k' then Some v else None
      end
  end.

(** ** Exceptions and outcomes *)

Inductive exn : Type :=
| NameError (name : string)      (* raised by the interpreter itself *)
| Emitted (what : string).       (* raised inside the SDK or the platform *)

Inductive outcome (A : Type) : Type :=
| Ok (a : A)
| Raise (e : exn).
Arguments Ok {A} a.
Arguments Raise {A} e.

(** ** The outside world *)

Class Platform : Type := {
  world : Type;
  (* instantiating an SDK class or factory with positional and keyword arguments *)
  sdk_new : string -> list pyval -> kwargs -> world -> outcome pyval * world;
  (* a method call on an SDK object *)
  sdk_call : pyval -> string -> list pyval -> kwargs -> world -> outcome pyval * world;
  (* SDK queries whose answer the notebooks use as text: the execution
     role, the default bucket, the region name, and the account, which
     is the ["Account"] entry of the caller identity *)
  sdk_text : option pyval -> string -> world -> outcome string * world;
  (* a [!] shell line: the exit status comes back, nothing is raised *)
  shell : string -> world -> Z * world;
  (* the variable store read by [%store -r] *)
  stored : world -> string -> option pyval;
  (* the text the interpreter shows for containers, floats and objects *)
  display : pyval -> string
}.

Inductive event : Type :=
| ENew (cls : string) (args : list pyval) (kw : kwargs) (res : outcome pyval)
| ECall (self : pyval) (meth : string) (args : list pyval) (kw : kwargs) (res : outcome pyval)
| EText (self : option pyval) (what : string) (res : outcome string)
| EShell (cmd : string) (status : Z).

Definition raised (ev : event) : option exn :=
  match ev with
  | ENew _ _ _ (Raise e) | ECall _ _ _ _ (Raise e) | EText _ _ (Raise e) => Some e
  | _ => None
  end.

Section Kernel.
Context `{P : Platform}.

(** ** Notebook state and the cell monad *)

Record nb : Type := Nb {
  ns : gmap string pyval;   (* the global namespace *)
  log : list event;         (* requests issued so far, oldest first *)
  ext : world
}.

Definition M (A : Type) : Type := nb -> outcome A * nb.

Definition ret {A} (a : A) : M A := fun s => (Ok a, s).
Definition bind {A B} (m : M A) (k : A -> M B) : M B :=
  fun s => match m s with
           | (Ok a, s') => k a s'
           | (Raise e, s') => (Raise e, s')
           end.

Local Notation "'let!' x ':=' m 'in' k" := (bind m (fun x => k))
  (at level 10, x name, m at level 100, k at level 200).
Local Notation "'exec' m 'then' k" := (bind m (fun _ => k))
  (at level 10, m at level 100, k at level 200).

(** Reading a name that is not bound raises [NameError]. *)
Definition var (x : string) : M pyval :=
  fun s => match ns s !! x with
           | Some v => (Ok v, s)
           | None => (Raise (NameError x), s)
           end.

Definition assign (x : string) (v : pyval) : M unit :=
  fun s => (Ok tt, Nb (<[x := v]> (ns s)) (log s) (ext s)).

Definition new (cls : string) (args : list pyval) (kw : kwargs) : M pyval :=
  fun s => let '(r, w) := sdk_new cls args kw (ext s) in
           (r, Nb (ns s) (log s ++ [ENew cls args kw r]) w).

Definition call (self : pyval) (meth : string) (args : list pyval) (kw : kwargs) : M pyval :=
  fun s => let '(r, w) := sdk_call self meth args kw (ext s) in
           (r, Nb (ns s) (log s ++ [ECall self meth args kw r]) w).

Definition text (self : option pyval) (what : string) : M string :=
  fun s => let '(r, w) := sdk_text self what (ext s) in
           (r, Nb (ns s) (log s ++ [EText self what r]) w).

Definition system (cmd : string) : M unit :=
  fun s => let '(st, w) := shell cmd (ext s) in
           (Ok tt, Nb (ns s) (log s ++ [EShell cmd st]) w).

(** [with open(path, mode) as f: body]: the file is closed whatever the
    body does; an exception from closing replaces the body's. *)
Definition with_open {A} (path mode : string) (body : pyval -> M A) : M A :=
  let! f := new "open" [VStr path; VStr mode] [] in
  fun s => match body f s with
           | (r, s1) =>
               match call f "close" [] [] s1 with
               | (Ok _, s2) => (r, s2)
               | (Raise e, s2) => (Raise e, s2)
               end
           end.

(** A cell under the [%%time] magic: the magic runs the body and, when
    the body raises, shows the traceback and ends the cell normally (the
    IPython 7 kernels of the notebooks, Python 3.6 and 3.7).  What the
    body did up to there stays, and a run goes on with the next cell. *)
Definition timed (c : M unit) : M unit := fun s => (Ok tt, (c s).2).

(** ** Text of a value, format strings and shell lines *)

Definition py_str (v : pyval) : string :=
  match v with
  | VStr s => s
  | VNone => "None"
  | VBool true => "True"
  | VBool false => "False"
  | VInt z => pretty z
  | _ => display v
  end.

Inductive piece : Type :=
| Lit (s : string)
| Hole (x : string).   (* a replacement field naming a variable *)

(** An f-string evaluates its fields left to right; an unbound name
    raises. *)
Fixpoint fstring (t : list piece) : M string :=
  match t with
  | [] => ret EmptyString
  | Lit s :: t' => let! r := fstring t' in ret (s +:+ r)
  | Hole x :: t' => let! v := var x in let! r := fstring t' in ret (py_str v +:+ r)
  end.

(** A [!] line is expanded against the namespace before it goes to the
    shell; when a field cannot be formatted the line is sent as written. *)
Fixpoint raw_text (t : list piece) : string :=
  match t with
  | [] => EmptyString
  | Lit s :: t' => s +:+ raw_text t'
  | Hole x :: t' => "{" +:+ x +:+ "}" +:+ raw_text t'
  end.

Fixpoint expand (n : gmap string pyval) (t : list piece) : option string :=
  match t with
  | [] => Some EmptyString
  | Lit s :: t' => r ← expand n t'; Some (s +:+ r)
  | Hole x :: t' => v ← n !! x; r ← expand n t'; Some (py_str v +:+ r)
  end.

Definition bang (t : list piece) : M unit :=
  fun s => system (default (raw_text t) (expand (ns s) t)) s.

(** A notebook run executes the cells top to bottom and stops at the
    first cell that raises. *)
Fixpoint run_cells (cells : list (M unit)) : M unit :=
  match cells with
  | [] => ret tt
  | c :: rest => exec c then run_cells rest
  end.

Definition fresh_kernel (w : world) : nb := Nb ∅ [] w.

End Kernel.

Notation "'let!' x ':=' m 'in' k" := (bind m (fun x => k))
  (at level 10, x name, m at level 100, k at level 200,
   format "'[v' 'let!'  x  ':='  m  'in' '/' k ']'").
Notation "'exec' m 'then' k" := (bind m (fun _ => k))
  (at level 10, m at level 100, k at level 200,
   format "'[v' 'exec'  m  'then' '/' k ']'").

(** ** Strings: splitting, as [str.split] and the shell do it *)

(** The fields of [s] between the characters that satisfy [sep]; empty
    fields are kept, so the result is never empty. *)
Fixpoint fields (sep : ascii -> bool) (s : string) : list string :=
  match s with
  | EmptyString => [EmptyString]
  | String c s' =>
      if sep c then EmptyString :: fields sep s'
      else match fields sep s' with
           | w :: ws => String c w :: ws
           | [] => [String c EmptyString]
           end
  end.

Definition is_char (a : ascii) : ascii -> bool := Ascii.eqb a.

(** [s.split(sep)] for a one-character separator. *)
Definition py_split (sep : ascii) (s : string) : list string := fields (is_char sep) s.

Definition is_blank (c : ascii) : bool :=
  Ascii.eqb c " " || Ascii.eqb c "009" || Ascii.eqb c "010".

Definition nonempty (s : string) : bool :=
  match s with EmptyString => false | _ => true end.

(** The shell reads a line as commands separated by [;], each a list of
    blank-separated words.  Quoting, redirection and expansion are not
    handled: the reading is the shell's only for lines free of them. *)
Definition sh_words (cmd : string) : list string :=
  List.filter nonempty (fields is_blank cmd).

Definition sh_commands (line : string) : list (list string) :=
  map sh_words (fields (is_char ";") line).

(** The positional arguments that a command [bash script ...] of the line
    hands to [script]. *)
Fixpoint script_args (script : string) (cmds : list (list string)) : option (list string) :=
  match cmds with
  | [] => None
  | (interp :: scr :: args) :: rest =>
      if String.eqb interp "bash" && String.eqb scr script then Some args
      else script_args script rest
  | _ :: rest => script_args script rest
  end.

(** Characters that the shell passes through untouched inside a word:
    letters, digits and [- _ . / :]. *)
Definition plain_char (c : ascii) : bool :=
  let n := nat_of_ascii c in
  ((48 <=? n) && (n <=? 57) || (65 <=? n) && (n <=? 90) || (97 <=? n) && (n <=? 122)
   || (n =? 45) || (n =? 95) || (n =? 46) || (n =? 47) || (n =? 58))%nat.

Fixpoint all_chars (p : ascii -> bool) (s : string) : bool :=
  match s with
  | EmptyString => true
  | String c s' => p c && all_chars p s'
  end.

Definition plain_word (s : string) : bool := nonempty s && all_chars plain_char s.

(** [os.path.join(a, b)] on a POSIX system. *)
Definition os_path_join (a b : string) : string :=
  match b with
  | String "/" _ => b
  | _ =>
      match a with
      | EmptyString => b
      | _ => if String.eqb (String.substring (String.length a - 1) 1 a) "/"
             then a +:+ b else a +:+ "/" +:+ b
      end
  end.

(** [sep.join(parts)] *)
Fixpoint py_join (sep : string) (parts : list string) : string :=
  match parts with
  | [] => EmptyString
  | [p] => p
  | p :: rest => p +:+ sep +:+ py_join sep rest
  end.

(** ** What the operator fills in

    The notebooks ship with placeholder literals that the operator is
    asked to replace.  The cells below take them from this record;
    [shipped_maskrcnn] and [shipped_bert] hold the text as committed. *)

Record operator : Type := {
  op_image : string;
  op_tag : string;
  op_instance_type : string;
  op_instance_count : Z;
  op_region : string;               (* MaskRCNN notebook only *)
  op_subnets : list string;
  op_security_group_ids : list string;
  op_file_system_id : string;
  op_directory_path : string;
  op_access_mode : string
}.

Definition shipped_maskrcnn : operator := {|
  op_image := "<ADD NAME OF REPO>";
  op_tag := "<ADD TAG FOR IMAGE>";
  op_instance_type := "ml.p3dn.24xlarge";
  op_instance_count := 2;
  op_region := "<REGION>";
  op_subnets := ["<SUBNET_ID>"];
  op_security_group_ids := ["<SECURITY_GROUP_ID>"];
  op_file_system_id := "<FSX_ID>";
  op_directory_path := "YOUR_MOUNT_PATH_FOR_TRAINING_DATA";
  op_access_mode := "ro"
|}.

Definition shipped_bert : operator := {|
  op_image := "<IMAGE_NAME>";
  op_tag := "<IMAGE_TAG>";
  op_instance_type := "ml.p3dn.24xlarge";
  op_instance_count := 2;
  op_region := EmptyString;
  op_subnets := ["<SUBNET_ID>"];
  op_security_group_ids := ["<SECURITY_GROUP_ID>"];
  op_file_system_id := "<FSX_ID>";
  op_directory_path := "<FSX_DIRECTORY_PATH>";
  op_access_mode := "rw"
|}.

(** The distribution argument, the same literal in both notebooks. *)
Definition distribution : pyval :=
  VDict [("smdistributed", VDict [("dataparallel", VDict [("enabled", VBool true)])])].

(** The image reference both notebooks build. *)
Definition docker_image_template : list piece :=
  [Hole "account"; Lit ".dkr.ecr."; Hole "region"; Lit ".amazonaws.com/";
   Hole "image"; Lit ":"; Hole "tag"].

(** The build-and-push line both notebooks send to the shell. *)
Definition build_and_push_line : list piece :=
  [Lit " chmod +x build_and_push.sh; bash build_and_push.sh ";
   Hole "region"; Lit " "; Hole "image"; Lit " "; Hole "tag"].

(** ** The notebooks

    One definition per code cell, in the order of the notebook; the
    names of cells are ours, the names of variables and of
    [copy_model_from_public_bucket] are the source's.  Imports and prints
    are left out: they bind no notebook variable and issue no request.
    The session-setup and the build cells of the training notebooks run
    under [%%time].  [client.get_caller_identity()['Account']] is one
    text query. *)

(** The MaskRCNN notebook (PyTorch estimator). *)
Module MaskRCNN.
Section Cells.
Context `{P : Platform}.
Variable op : operator.

Definition session_setup : M unit :=
  timed
    (exec bang [Lit " python3 -m pip install --upgrade sagemaker"] then
     let! sagemaker_session := new "sagemaker.Session" [] [] in
     exec assign "sagemaker_session" sagemaker_session then
     let! bucket := text (Some sagemaker_session) "default_bucket" in
     exec assign "bucket" (VStr bucket) then
     let! role := text None "get_execution_role" in
     exec assign "role" (VStr role) then
     exec assign "role_name" (VList (map VStr (py_split "/" role))) then
     let! client := new "boto3.client" [VStr "sts"] [] in
     exec assign "client" client then
     let! account := text (Some client) "get_caller_identity.Account" in
     exec assign "account" (VStr account) then
     let! session := new "boto3.session.Session" [] [] in
     exec assign "session" session then
     let! region := text (Some session) "region_name" in
     assign "region" (VStr region)).

Definition name_image : M unit :=
  exec assign "image" (VStr (op_image op)) then
  assign "tag" (VStr (op_tag op)).

Definition show_dockerfile : M unit := bang [Lit "pygmentize ./Dockerfile"].
Definition show_build_script : M unit := bang [Lit "pygmentize ./build_and_push.sh"].

Definition build_and_push : M unit := timed (bang build_and_push_line).

Definition configure : M unit :=
  exec assign "instance_type" (VStr (op_instance_type op)) then
  exec assign "instance_count" (VInt (op_instance_count op)) then
  let! docker_image := fstring docker_image_template in
  exec assign "docker_image" (VStr docker_image) then
  exec assign "region" (VStr (op_region op)) then
  exec assign "username" (VStr "AWS") then
  exec assign "subnets" (VList (map VStr (op_subnets op))) then
  exec assign "security_group_ids" (VList (map VStr (op_security_group_ids op))) then
  exec assign "job_name" (VStr "pytorch-smdataparallel-mrcnn-fsx") then
  exec assign "file_system_id" (VStr (op_file_system_id op)) then
  assign "config_file" (VStr "e2e_mask_rcnn_R_50_FPN_1x_16GPU_4bs.yaml").

Definition set_hyperparameters : M unit :=
  let! config_file := var "config_file" in
  assign "hyperparameters"
    (VDict [("config-file", config_file);
            ("skip-test", VStr EmptyString);
            ("seed", VInt 987);
            ("dtype", VStr "float16")]).

Definition make_estimator : M unit :=
  let! role := var "role" in
  let! docker_image := var "docker_image" in
  let! instance_count := var "instance_count" in
  let! instance_type := var "instance_type" in
  let! sagemaker_session := var "sagemaker_session" in
  let! hyperparameters := var "hyperparameters" in
  let! subnets := var "subnets" in
  let! security_group_ids := var "security_group_ids" in
  let! estimator :=
    new "PyTorch" []
      [("entry_point", VStr "train_pytorch_smdataparallel_maskrcnn.py");
       ("role", role);
       ("image_uri", docker_image);
       ("source_dir", VStr ".");
       ("instance_count", instance_count);
       ("instance_type", instance_type);
       ("framework_version", VStr "1.8.1");
       ("py_version", VStr "py36");
       ("sagemaker_session", sagemaker_session);
       ("hyperparameters", hyperparameters);
       ("subnets", subnets);
       ("security_group_ids", security_group_ids);
       ("debugger_hook_config", VBool false);
       ("distribution", distribution)] in
  assign "estimator" estimator.

Definition bind_input : M unit :=
  exec assign "file_system_directory_path" (VStr (op_directory_path op)) then
  exec assign "file_system_access_mode" (VStr (op_access_mode op)) then
  exec assign "file_system_type" (VStr "FSxLustre") then
  let! file_system_id := var "file_system_id" in
  let! train_fs :=
    new "FileSystemInput" []
      [("file_system_id", file_system_id);
       ("file_system_type", VStr "FSxLustre");
       ("directory_path", VStr (op_directory_path op));
       ("file_system_access_mode", VStr (op_access_mode op))] in
  exec assign "train_fs" train_fs then
  assign "data_channels" (VDict [("train", train_fs)]).

Definition submit : M unit :=
  let! estimator := var "estimator" in
  let! data_channels := var "data_channels" in
  let! job_name := var "job_name" in
  let! _ := call estimator "fit" [] [("inputs", data_channels); ("job_name", job_name)] in
  ret tt.

Definition notebook : list (M unit) :=
  [session_setup; name_image; show_dockerfile; show_build_script; build_and_push;
   configure; set_hyperparameters; make_estimator; bind_input; submit].

End Cells.
End MaskRCNN.

(** The BERT notebook (TensorFlow estimator). *)
Module BERT.
Section Cells.
Context `{P : Platform}.
Variable op : operator.

Definition session_setup : M unit :=
  timed
    (exec bang [Lit " python3 -m pip install --upgrade sagemaker"] then
     let! sagemaker_session := new "sagemaker.Session" [] [] in
     exec assign "sagemaker_session" sagemaker_session then
     let! bucket := text (Some sagemaker_session) "default_bucket" in
     exec assign "bucket" (VStr bucket) then
     let! role := text None "get_execution_role" in
     exec assign "role" (VStr role) then
     let! client := new "boto3.client" [VStr "sts"] [] in
     exec assign "client" client then
     let! account := text (Some client) "get_caller_identity.Account" in
     exec assign "account" (VStr account) then
     let! session := new "boto3.session.Session" [] [] in
     exec assign "session" session then
     let! region := text (Some session) "region_name" in
     assign "region" (VStr region)).

Definition name_image : M unit :=
  exec assign "image" (VStr (op_image op)) then
  assign "tag" (VStr (op_tag op)).

Definition show_dockerfile : M unit := bang [Lit "pygmentize ./Dockerfile"].
Definition show_build_script : M unit := bang [Lit "pygmentize ./build_and_push.sh"].

Definition build_and_push : M unit := timed (bang build_and_push_line).

Definition clone_scripts : M unit :=
  exec bang [Lit "rm -rf deep-learning-models"] then
  bang [Lit "git clone --recursive https://github.com/HerringForks/deep-learning-models.git"].

Definition configure : M unit :=
  exec assign "instance_type" (VStr (op_instance_type op)) then
  exec assign "instance_count" (VInt (op_instance_count op)) then
  let! docker_image := fstring docker_image_template in
  exec assign "docker_image" (VStr docker_image) then
  exec assign "username" (VStr "AWS") then
  exec assign "subnets" (VList (map VStr (op_subnets op))) then
  exec assign "security_group_ids" (VList (map VStr (op_security_group_ids op))) then
  exec assign "job_name" (VStr "smdataparallel-bert-tf2-fsx-2p3dn") then
  assign "file_system_id" (VStr (op_file_system_id op)).

Definition SM_DATA_ROOT : string := "/opt/ml/input/data/train".

Definition set_hyperparameters : M unit :=
  exec assign "SM_DATA_ROOT" (VStr SM_DATA_ROOT) then
  let! job_name := var "job_name" in
  assign "hyperparameters"
    (VDict
       [("train_dir", VStr (py_join "/" [SM_DATA_ROOT; "tfrecords/train/max_seq_len_128_max_predictions_per_seq_20_masked_lm_prob_15"]));
        ("val_dir", VStr (py_join "/" [SM_DATA_ROOT; "tfrecords/validation/max_seq_len_128_max_predictions_per_seq_20_masked_lm_prob_15"]));
        ("log_dir", VStr (py_join "/" [SM_DATA_ROOT; "checkpoints/bert/logs"]));
        ("checkpoint_dir", VStr (py_join "/" [SM_DATA_ROOT; "checkpoints/bert"]));
        ("load_from", VStr "scratch");
        ("model_type", VStr "bert");
        ("model_size", VStr "large");
        ("per_gpu_batch_size", VInt 64);
        ("max_seq_length", VInt 128);
        ("max_predictions_per_seq", VInt 20);
        ("optimizer", VStr "lamb");
        ("learning_rate", VFloat "0.005");
        ("end_learning_rate", VFloat "0.0003");
        ("hidden_dropout_prob", VFloat "0.1");
        ("attention_probs_dropout_prob", VFloat "0.1");
        ("gradient_accumulation_steps", VInt 1);
        ("learning_rate_decay_power", VFloat "0.5");
        ("warmup_steps", VInt 2812);
        ("total_steps", VInt 2000);
        ("log_frequency", VInt 10);
        ("run_name", job_name);
        ("squad_frequency", VInt 0)]).

Definition make_estimator : M unit :=
  let! role := var "role" in
  let! docker_image := var "docker_image" in
  let! instance_count := var "instance_count" in
  let! instance_type := var "instance_type" in
  let! sagemaker_session := var "sagemaker_session" in
  let! subnets := var "subnets" in
  let! hyperparameters := var "hyperparameters" in
  let! security_group_ids := var "security_group_ids" in
  let! estimator :=
    new "TensorFlow" []
      [("entry_point", VStr "albert/run_pretraining.py");
       ("role", role);
       ("image_uri", docker_image);
       ("source_dir", VStr "deep-learning-models/models/nlp");
       ("framework_version", VStr "2.4.1");
       ("py_version", VStr "py37");
       ("instance_count", instance_count);
       ("instance_type", instance_type);
       ("sagemaker_session", sagemaker_session);
       ("subnets", subnets);
       ("hyperparameters", hyperparameters);
       ("security_group_ids", security_group_ids);
       ("debugger_hook_config", VBool false);
       ("distribution", distribution)] in
  assign "estimator" estimator.

Definition bind_input : M unit :=
  exec assign "file_system_directory_path" (VStr (op_directory_path op)) then
  exec assign "file_system_access_mode" (VStr (op_access_mode op)) then
  exec assign "file_system_type" (VStr "FSxLustre") then
  let! file_system_id := var "file_system_id" in
  let! train_fs :=
    new "FileSystemInput" []
      [("file_system_id", file_system_id);
       ("file_system_type", VStr "FSxLustre");
       ("directory_path", VStr (op_directory_path op));
       ("file_system_access_mode", VStr (op_access_mode op))] in
  exec assign "train_fs" train_fs then
  assign "data_channels" (VDict [("train", train_fs)]).

Definition submit : M unit :=
  let! estimator := var "estimator" in
  let! data_channels := var "data_channels" in
  let! job_name := var "job_name" in
  let! _ := call estimator "fit" [] [("inputs", data_channels); ("job_name", job_name)] in
  ret tt.

Definition notebook : list (M unit) :=
  [session_setup; name_image; show_dockerfile; show_build_script; build_and_push;
   clone_scripts; configure; set_hyperparameters; make_estimator; bind_input; submit].

End Cells.
End BERT.

(** The deployment notebook. *)
Module Deploy.
Section Cells.
Context `{P : Platform}.

Definition public_bucket : string := "sagemaker-sample-files".
Definition key : string := "datasets/image/MNIST/model/model.tar.gz".

Definition copy_model_from_public_bucket : M string :=
  let! s3 := new "boto3.client" [VStr "s3"] [] in
  exec with_open (os_path_join "/tmp" "model.tar.gz") "wb"
         (fun f => call s3 "download_fileobj" [VStr public_bucket; VStr key; f] []) then
  let! session := new "sagemaker.Session" [] [] in
  let! default_bucket := text (Some session) "default_bucket" in
  exec with_open (os_path_join "/tmp" "model.tar.gz") "rb"
         (fun f => call s3 "upload_fileobj" [f; VStr default_bucket; VStr key] []) then
  ret ("s3://" +:+ default_bucket +:+ "/" +:+ key).

(** The cell that holds the [def]: it only binds the function's name. *)
Definition define_copy : M unit :=
  assign "copy_model_from_public_bucket" (VObj "function" "copy_model_from_public_bucket").

(** [%store -r x]: binds [x] when the store has it, else leaves the
    namespace alone. *)
Definition store_restore (x : string) : M unit :=
  fun s => match stored (ext s) x with
           | Some v => assign x v s
           | None => (Ok tt, s)
           end.

(** [try: body / except NameError: handler] *)
Definition try_except_NameError {A} (body handler : M A) : M A :=
  fun s => match body s with
           | (Raise (NameError _), s') => handler s'
           | r => r
           end.

Definition find_model : M unit :=
  exec store_restore "model_data" then
  try_except_NameError
    (let! _ := var "model_data" in ret tt)
    (let! _ := var "copy_model_from_public_bucket" in
     let! uri := copy_model_from_public_bucket in
     assign "model_data" (VStr uri)).

Definition make_model : M unit :=
  let! role := text None "get_execution_role" in
  exec assign "role" (VStr role) then
  let! model_data := var "model_data" in
  let! model :=
    new "TensorFlowModel" []
      [("model_data", model_data); ("role", VStr role); ("framework_version", VStr "2.3")] in
  assign "model" model.

Definition deploy : M unit :=
  let! model := var "model" in
  let! predictor :=
    call model "deploy" []
      [("initial_instance_count", VInt 1); ("instance_type", VStr "ml.m4.xlarge")] in
  assign "predictor" predictor.

Definition cleanup : M unit :=
  let! predictor := var "predictor" in
  let! _ := call predictor "delete_endpoint" [] [] in
  ret tt.

Definition notebook : list (M unit) :=
  [define_copy; find_model; make_model; deploy; cleanup].

End Cells.
End Deploy.

(** ** Concrete platforms *)

(** A platform on which every request succeeds; [store] is what an
    earlier notebook left for [%store -r]. *)
Definition calm_answer (what : string) : string :=
  if String.eqb what "get_execution_role" then "arn:aws:iam::123456789012:role/service-role/Demo"
  else if String.eqb what "get_caller_identity.Account" then "123456789012"
  else if String.eqb what "region_name" then "us-west-2"
  else if String.eqb what "default_bucket" then "sagemaker-us-west-2-123456789012"
  else EmptyString.

(** What a method call returns on the calm platforms: [deploy] returns
    a predictor object, the other methods the notebooks call return
    nothing. *)
Definition calm_result (meth : string) : pyval :=
  if String.eqb meth "deploy" then VObj "Predictor" "1" else VNone.

Definition calm (store : string -> option pyval) : Platform := {|
  world := unit;
  sdk_new := fun cls _ _ w => (Ok (VObj cls "1"), w);
  sdk_call := fun _ meth _ _ w => (Ok (calm_result meth), w);
  sdk_text := fun _ what w => (Ok (calm_answer what), w);
  shell := fun _ w => (0, w);
  stored := fun _ x => store x;
  display := fun _ => EmptyString
|}.

Definition nothing_stored : string -> option pyval := fun _ => None.

(** Modelled from the spec: the model hosting service, which the
    repository only calls.  "Accepts a model descriptor and instance
    sizing; returns an invocable prediction endpoint; supports explicit
    teardown", each "a single request/response pair".  The service state
    is the set of active endpoint names and the names it will hand out;
    a deployment under a name already active is refused, and a teardown
    removes the endpoint the handle names. *)
Record hosting : Type := Hosting {
  active : gset string;
  upcoming : list string
}.

(** Modelled from the spec: what the hosting service answers to the two
    requests of the hosting API, [deploy] on a model and
    [delete_endpoint] on the object a deployment returned. *)
Definition hosting_call (self : pyval) (meth : string) (w : hosting) : outcome pyval * hosting :=
  if String.eqb meth "deploy" then
    match upcoming w with
    | [] => (Raise (Emitted "no capacity"), w)
    | n :: rest =>
        if decide (n ∈ active w)
        then (Raise (Emitted "endpoint exists"), Hosting (active w) rest)
        else (Ok (VObj "Predictor" n), Hosting ({[n]} ∪ active w) rest)
    end
  else if String.eqb meth "delete_endpoint" then
    match self with
    | VObj _ n =>
        if decide (n ∈ active w)
        then (Ok VNone, Hosting (active w ∖ {[n]}) (upcoming w))
        else (Raise (Emitted "no such endpoint"), w)
    | _ => (Raise (Emitted "not a predictor"), w)
    end
  else (Ok VNone, w).

(** Modelled from the spec: the platform whose method calls are answered
    by the hosting service; every other request succeeds. *)
Definition hosting_service : Platform := {|
  world := hosting;
  sdk_new := fun cls _ _ w => (Ok (VObj cls "1"), w);
  sdk_call := fun self meth _ _ w => hosting_call self meth w;
  sdk_text := fun _ what w => (Ok (calm_answer what), w);
  shell := fun _ w => (0, w);
  stored := fun _ _ => None;
  display := fun _ => EmptyString
|}.

(** * Vocabulary for the statements *)

(** The exceptions that requests of the log came back with, in order. *)
Definition failures (l : list event) : list exn := omap raised l.

(** An S3 URI with something after the scheme. *)
Definition is_s3_uri (s : string) : bool :=
  String.prefix "s3://" s && (5 <? String.length s)%nat.

(** The flags of a nested mapping: every leaf with the keys leading to it. *)
Fixpoint flags (v : pyval) : list (list string * pyval) :=
  match v with
  | VDict items =>
      (fix go (l : list (string * pyval)) : list (list string * pyval) :=
         match l with
         | [] => []
         | (k, v') :: rest =>
             map (fun '(path, x) => (k :: path, x)) (flags v') ++ go rest
         end) items
  | _ => [([], v)]
  end.

Definition is_fit (ev : event) : bool :=
  match ev with
  | ECall _ meth _ _ _ => String.eqb meth "fit"
  | _ => false
  end.

Section Vocabulary.
Context `{P : Platform}.

(** [wp m s Q]: running [m] from [s] ends in an outcome and a state that
    satisfy [Q]. *)
Definition wp {A} (m : M A) (s : nb) (Q : outcome A -> nb -> Prop) : Prop :=
  Q (m s).1 (m s).2.

Definition continue {A B} (k : A -> M B) (Q : outcome B -> nb -> Prop)
    (r : outcome A) (s : nb) : Prop :=
  match r with
  | Ok a => wp (k a) s Q
  | Raise e => Q (Raise e) s
  end.

Definition maskrcnn_run (op : operator) (w : world) : outcome unit * nb :=
  run_cells (MaskRCNN.notebook op) (fresh_kernel w).

Definition bert_run (op : operator) (w : world) : outcome unit * nb :=
  run_cells (BERT.notebook op) (fresh_kernel w).

Definition deploy_run (w : world) : outcome unit * nb :=
  run_cells Deploy.notebook (fresh_kernel w).

(** What a run that fails looks like: exactly one request came back with
    an exception, it is the last thing the notebook did, and the run
    ends with that very exception. *)
Definition fails_only_from_outside (run : outcome unit * nb) : Prop :=
  match run.1 with
  | Ok _ => failures (log run.2) = []
  | Raise e =>
      failures (log run.2) = [e]
      /\ exists ev, last (log run.2) = Some ev /\ raised ev = Some e
  end.

(** Every [fit] call of a run is handed one channel, ["train"], bound to
    the file-system reference built from the operator's id, path and
    access mode. *)
Definition binds_only_train (op : operator) (run : outcome unit * nb) : Prop :=
  forall self args kw res,
    ECall self "fit" args kw res ∈ log run.2 ->
    exists fs kwf,
      kw_get "inputs" kw = Some (VDict [("train", fs)])
      /\ ENew "FileSystemInput" [] kwf (Ok fs) ∈ log run.2
      /\ kw_get "file_system_id" kwf = Some (VStr (op_file_system_id op))
      /\ kw_get "directory_path" kwf = Some (VStr (op_directory_path op))
      /\ kw_get "file_system_access_mode" kwf = Some (VStr (op_access_mode op)).

(** A run that reaches [fit]: the call is the last request of the log;
    before it, in this order and all answered without an exception, came
    the region query of session setup, the build-and-push shell line,
    the estimator (class [cls]) and the file-system input; [fit] is
    called on that estimator with that input as its only channel; and
    the run ends as [fit] ends. *)
Definition fit_comes_last (cls : string) (op : operator) (run : outcome unit * nb) : Prop :=
  existsb is_fit (log run.2) = true ->
  exists session region status kwe est kwf fs jn res,
    last (log run.2)
      = Some (ECall est "fit" [] [("inputs", VDict [("train", fs)]); ("job_name", jn)] res)
    /\ sublist
         [EText (Some session) "region_name" (Ok region);
          EShell (" chmod +x build_and_push.sh; bash build_and_push.sh "
                  +:+ region +:+ " " +:+ op_image op +:+ " " +:+ op_tag op) status;
          ENew cls [] kwe (Ok est);
          ENew "FileSystemInput" [] kwf (Ok fs)]
         (removelast (log run.2))
    /\ failures (removelast (log run.2)) = []
    /\ existsb is_fit (removelast (log run.2)) = false
    /\ run.1 = match res with Ok _ => Ok tt | Raise e => Raise e end.

(** The image reference of every estimator of the run is built from the
    account and the region that session setup was answered with; after
    the run the name [region] holds the operator's literal instead. *)
Definition image_follows_session_region (op : operator) (run : outcome unit * nb) : Prop :=
  forall args kw res,
    ENew "PyTorch" args kw res ∈ log run.2 ->
    exists client session account region,
      EText (Some client) "get_caller_identity.Account" (Ok account) ∈ log run.2
      /\ EText (Some session) "region_name" (Ok region) ∈ log run.2
      /\ kw_get "image_uri" kw
           = Some (VStr (account +:+ ".dkr.ecr." +:+ region +:+ ".amazonaws.com/"
                         +:+ op_image op +:+ ":" +:+ op_tag op))
      /\ ns run.2 !! "docker_image"
           = Some (VStr (account +:+ ".dkr.ecr." +:+ region +:+ ".amazonaws.com/"
                         +:+ op_image op +:+ ":" +:+ op_tag op))
      /\ ns run.2 !! "region" = Some (VStr (op_region op)).

(** The cell issued one request, the construction of a [cls] object,
    and its keyword record carries the namespace's instance type,
    instance count and hyperparameters as they are. *)
Definition passes_through (cls : string) (s : nb) (run : outcome unit * nb) : Prop :=
  exists kw res,
    log run.2 = log s ++ [ENew cls [] kw res]
    /\ kw_get "instance_type" kw = ns s !! "instance_type"
    /\ kw_get "instance_count" kw = ns s !! "instance_count"
    /\ kw_get "hyperparameters" kw = ns s !! "hyperparameters".

(** The cell issued one request, the construction of a [cls] object,
    whose distribution argument has [enabled] under [dataparallel] under
    [smdistributed], set to true, as its only flag. *)
Definition enables_data_parallel_only (cls : string) (s : nb) (run : outcome unit * nb) : Prop :=
  exists kw res d,
    log run.2 = log s ++ [ENew cls [] kw res]
    /\ kw_get "distribution" kw = Some d
    /\ flags d = [(["smdistributed"; "dataparallel"; "enabled"], VBool true)].

(** The cell issued one request, the construction of a file-system input
    whose keyword record reads back the id, the path and the access mode;
    when the SDK returns the object, it is bound to [train_fs] and is
    the one channel of [data_channels]. *)
Definition binds_file_system (fsid path mode : pyval) (s : nb) (run : outcome unit * nb) : Prop :=
  exists kw res,
    log run.2 = log s ++ [ENew "FileSystemInput" [] kw res]
    /\ kw_get "file_system_id" kw = Some fsid
    /\ kw_get "directory_path" kw = Some path
    /\ kw_get "file_system_access_mode" kw = Some mode
    /\ forall fs, res = Ok fs ->
         ns run.2 !! "train_fs" = Some fs
         /\ ns run.2 !! "data_channels" = Some (VDict [("train", fs)]).

(** The cell sent one line to the shell, and the shell hands the script
    exactly [region], [image] and [tag], in this order. *)
Definition hands_over (region image tag : string) (s : nb) (run : outcome unit * nb) : Prop :=
  exists line status,
    log run.2 = log s ++ [EShell line status]
    /\ script_args "build_and_push.sh" (sh_commands line) = Some [region; image; tag].

(** Every model object of the run is constructed on [v]. *)
Definition models_built_on (v : pyval) (run : outcome unit * nb) : Prop :=
  forall args kw res,
    ENew "TensorFlowModel" args kw res ∈ log run.2 ->
    kw_get "model_data" kw = Some v.

(** Every model object of the run is constructed on a non-empty S3 URI. *)
Definition models_built_on_s3_uri (run : outcome unit * nb) : Prop :=
  forall args kw res,
    ENew "TensorFlowModel" args kw res ∈ log run.2 ->
    exists uri, kw_get "model_data" kw = Some (VStr uri) /\ is_s3_uri uri = true.

(** The run called no method other than the endpoint's two: nothing was
    downloaded or uploaded. *)
Definition no_transfer (run : outcome unit * nb) : Prop :=
  forall self meth args kw res,
    ECall self meth args kw res ∈ log run.2 ->
    meth = "deploy" \/ meth = "delete_endpoint".

(** Every model object of the run is constructed on the URI of the copy
    in the default bucket, after the public artifact was downloaded and
    uploaded there. *)
Definition models_built_on_copy (run : outcome unit * nb) : Prop :=
  forall args kw res,
    ENew "TensorFlowModel" args kw res ∈ log run.2 ->
    exists s3 f1 r1 session bucket f2 r2,
      kw_get "model_data" kw = Some (VStr ("s3://" +:+ bucket +:+ "/" +:+ Deploy.key))
      /\ is_s3_uri ("s3://" +:+ bucket +:+ "/" +:+ Deploy.key) = true
      /\ sublist
           [ECall s3 "download_fileobj"
              [VStr Deploy.public_bucket; VStr Deploy.key; f1] [] (Ok r1);
            EText (Some session) "default_bucket" (Ok bucket);
            ECall s3 "upload_fileobj" [f2; VStr bucket; VStr Deploy.key] [] (Ok r2)]
           (log run.2).

End Vocabulary.

(** ** Concrete inputs *)

(** The operator's values taken from the notebooks' "Example:" comments;
    the region literal is left as shipped. *)
Definition example_operator : operator := {|
  op_image := "mask-rcnn-smdataparallel-sagemaker";
  op_tag := "pt1.8";
  op_instance_type := "ml.p3dn.24xlarge";
  op_instance_count := 2;
  op_region := "<REGION>";
  op_subnets := ["subnet-0f9XXXX"];
  op_security_group_ids := ["sg-03ZZZZZZ"];
  op_file_system_id := "fs-0bYYYYYY";
  op_directory_path := "/fsx/mask_rcnn/PyTorch";
  op_access_mode := "ro"
|}.

Definition demo : Platform := calm nothing_stored.

(** The MaskRCNN notebook on the calm platform, run up to the build
    cell and up to the estimator cell. *)
Definition before_build : @nb demo :=
  (@run_cells demo (take 4 (@MaskRCNN.notebook demo example_operator))
     (@fresh_kernel demo tt)).2.

Definition before_estimator : @nb demo :=
  (@run_cells demo (take 7 (@MaskRCNN.notebook demo example_operator))
     (@fresh_kernel demo tt)).2.

(** A kernel in which the operator named the repository with a blank. *)
Definition spaced_name : @nb demo :=
  @Nb demo
    (<["tag" := VStr "pt1.8"]>
       (<["image" := VStr "mask rcnn"]>
          (<["region" := VStr "us-west-2"]> ∅))) [] tt.

(** A store that holds a local path under [model_data]. *)
Definition stored_local_path (x : string) : option pyval :=
  if String.eqb x "model_data" then Some (VStr "/home/ec2-user/SageMaker/model.tar.gz")
  else None.

Definition example_descriptor : kwargs :=
  [("entry_point", VStr "train_pytorch_smdataparallel_maskrcnn.py");
   ("role", VStr "arn:aws:iam::123456789012:role/service-role/Demo");
   ("image_uri",
    VStr "123456789012.dkr.ecr.us-west-2.amazonaws.com/mask-rcnn-smdataparallel-sagemaker:pt1.8");
   ("source_dir", VStr ".");
   ("instance_count", VInt 2);
   ("instance_type", VStr "ml.p3dn.24xlarge");
   ("framework_version", VStr "1.8.1");
   ("py_version", VStr "py36");
   ("sagemaker_session", VObj "sagemaker.Session" "1");
   ("hyperparameters",
    VDict [("config-file", VStr "e2e_mask_rcnn_R_50_FPN_1x_16GPU_4bs.yaml");
           ("skip-test", VStr EmptyString); ("seed", VInt 987); ("dtype", VStr "float16")]);
   ("subnets", VList [VStr "subnet-0f9XXXX"]);
   ("security_group_ids", VList [VStr "sg-03ZZZZZZ"]);
   ("debugger_hook_config", VBool false);
   ("distribution", distribution)].

Definition example_estimator : event :=
  ENew "PyTorch" [] example_descriptor (Ok (VObj "PyTorch" "1")).

Definition example_submission : kwargs :=
  [("inputs", VDict [("train", VObj "FileSystemInput" "1")]);
   ("job_name", VStr "pytorch-smdataparallel-mrcnn-fsx")].

Definition example_fit : event :=
  ECall (VObj "PyTorch" "1") "fit" [] example_submission (Ok VNone).

Definition example_model : event :=
  ENew "TensorFlowModel" []
    [("model_data", VStr "/home/ec2-user/SageMaker/model.tar.gz");
     ("role", VStr "arn:aws:iam::123456789012:role/service-role/Demo");
     ("framework_version", VStr "2.3")]
    (Ok (VObj "TensorFlowModel" "1")).

(** The last two cells of the deployment notebook, on the hosting
    service. *)
Definition deploy_and_teardown : list (@M hosting_service unit) :=
  [@Deploy.deploy hosting_service; @Deploy.cleanup hosting_service].

(** ** Further vocabulary and inputs *)

(** The file objects that the log shows opened, and those it shows
    closed, in order. *)
Definition opened (l : list event) : list pyval :=
  omap (fun ev => match ev with
                  | ENew cls _ _ (Ok f) => if String.eqb cls "open" then Some f else None
                  | _ => None
                  end) l.

Definition closed (l : list event) : list pyval :=
  omap (fun ev => match ev with
                  | ECall f meth _ _ _ => if String.eqb meth "close" then Some f else None
                  | _ => None
                  end) l.

(** The names that the estimator cell of either notebook reads. *)
Definition estimator_reads : list string :=
  ["role"; "docker_image"; "instance_count"; "instance_type";
   "sagemaker_session"; "hyperparameters"; "subnets"; "security_group_ids"].

(** Whether a slash occurs in [s]. *)
Definition has_slash (s : string) : bool := negb (all_chars (fun c => negb (is_char "/" c)) s).

(** The first request of the log that came back with an exception, and
    the requests issued after it. *)
Fixpoint first_failure (l : list event) : option event :=
  match l with
  | [] => None
  | ev :: rest =>
      match raised ev with
      | Some _ => Some ev
      | None => first_failure rest
      end
  end.

Fixpoint after_failure (l : list event) : list event :=
  match l with
  | [] => []
  | ev :: rest =>
      match raised ev with
      | Some _ => rest
      | None => after_failure rest
      end
  end.

(** The requests of the session-setup cell: the session, client and
    boto3 session objects and the text queries. *)
Definition is_setup_request (ev : event) : bool :=
  match ev with
  | ENew cls _ _ _ =>
      String.eqb cls "sagemaker.Session" || String.eqb cls "boto3.client"
      || String.eqb cls "boto3.session.Session"
  | EText _ _ _ => true
  | _ => false
  end.

Definition is_shell_line (ev : event) : bool :=
  match ev with
  | EShell _ _ => true
  | _ => false
  end.

(** The calm platform, except that the execution role is refused. *)
Definition role_refused : Platform := {|
  world := unit;
  sdk_new := fun cls _ _ w => (Ok (VObj cls "1"), w);
  sdk_call := fun _ meth _ _ w => (Ok (calm_result meth), w);
  sdk_text := fun _ what w =>
    if String.eqb what "get_execution_role" then (Raise (Emitted "AccessDenied"), w)
    else (Ok (calm_answer what), w);
  shell := fun _ w => (0, w);
  stored := fun _ _ => None;
  display := fun _ => EmptyString
|}.

(** The calm platform with a shell on which every line fails. *)
Definition failing_shell : Platform := {|
  world := unit;
  sdk_new := fun cls _ _ w => (Ok (VObj cls "1"), w);
  sdk_call := fun _ meth _ _ w => (Ok (calm_result meth), w);
  sdk_text := fun _ what w => (Ok (calm_answer what), w);
  shell := fun _ w => (1, w);
  stored := fun _ _ => None;
  display := fun _ => EmptyString
|}.

Section FurtherVocabulary.
Context `{P : Platform}.

(** No failed request is swallowed: a run that ends normally had none,
    and a run that raises ends with the last exception a request came
    back with. *)
Definition surfaces_failures (run : outcome unit * nb) : Prop :=
  match run.1 with
  | Ok _ => failures (log run.2) = []
  | Raise e => last (failures (log run.2)) = Some e
  end.

(** The cell raised [NameError] on a name of [estimator_reads] that is
    unbound, and left the notebook state as it was. *)
Definition stops_on_missing_name (s : nb) (run : outcome unit * nb) : Prop :=
  exists y, y ∈ estimator_reads /\ ns s !! y = None
            /\ run.1 = Raise (NameError y) /\ run.2 = s.

(** The run ended normally and its last request is a [fit] call that
    returned. *)
Definition submits (run : outcome unit * nb) : Prop :=
  run.1 = Ok tt
  /\ exists est kw r, last (log run.2) = Some (ECall est "fit" [] kw (Ok r)).

(** A run in which no request came back with an exception submits. *)
Definition submits_unless_a_request_fails (run : outcome unit * nb) : Prop :=
  failures (log run.2) = [] -> submits run.

(** A run that calls [fit] has it as its last step, in the sense of
    [fit_comes_last], and a run in which no request came back with an
    exception does call [fit]. *)
Definition fit_closes_the_run (cls : string) (op : operator)
    (run : outcome unit * nb) : Prop :=
  fit_comes_last cls op run
  /\ (failures (log run.2) = [] -> existsb is_fit (log run.2) = true).

(** How a training run ends.  It ends normally only when no request
    came back with an exception.  When it raises, exactly one request
    came back with an exception, and either that request is not one of
    session setup, it is the last thing the notebook did and the run
    ends with its exception; or it is a request of session setup, the
    notebook went on after it with shell lines only, and the run ends
    with [NameError] on [account] or on [region]. *)
Definition ends_as_the_kernel_does (run : outcome unit * nb) : Prop :=
  match run.1 with
  | Ok _ => failures (log run.2) = []
  | Raise e =>
      exists ev e',
        first_failure (log run.2) = Some ev
        /\ raised ev = Some e'
        /\ failures (log run.2) = [e']
        /\ ((is_setup_request ev = false
             /\ e = e'
             /\ after_failure (log run.2) = [])
            \/ (is_setup_request ev = true
                /\ (e = NameError "account" \/ e = NameError "region")
                /\ after_failure (log run.2) <> []
                /\ forallb is_shell_line (after_failure (log run.2)) = true))
  end.

(** The session-setup cell ended normally, and if the execution role
    was answered in it, [role] is bound to the answer and [role_name] to
    its parts: a non-empty list of parts without a slash that, joined
    by slashes, give the role back. *)
Definition splits_the_role (s : nb) (run : outcome unit * nb) : Prop :=
  run.1 = Ok tt
  /\ exists evs,
       log run.2 = log s ++ evs
       /\ forall role,
            EText None "get_execution_role" (Ok role) ∈ evs ->
            exists parts,
              ns run.2 !! "role" = Some (VStr role)
              /\ ns run.2 !! "role_name" = Some (VList (map VStr parts))
              /\ parts <> []
              /\ py_join "/" parts = role
              /\ Forall (fun p => has_slash p = false) parts.


(** Every [cls] estimator of the run is given the session object and
    the execution role of session setup and the operator's subnets and
    security groups. *)
Definition carries_session_and_network (cls : string) (op : operator)
    (run : outcome unit * nb) : Prop :=
  forall args kw res,
    ENew cls args kw res ∈ log run.2 ->
    exists session role,
      ENew "sagemaker.Session" [] [] (Ok session) ∈ log run.2
      /\ EText None "get_execution_role" (Ok role) ∈ log run.2
      /\ kw_get "sagemaker_session" kw = Some session
      /\ kw_get "role" kw = Some (VStr role)
      /\ kw_get "subnets" kw = Some (VList (map VStr (op_subnets op)))
      /\ kw_get "security_group_ids" kw
         = Some (VList (map VStr (op_security_group_ids op))).

(** Every [fit] call of the run is on an estimator constructed in the
    run, under the job name that the estimator has as its [run_name]
    hyperparameter. *)
Definition job_named_as_run (run : outcome unit * nb) : Prop :=
  forall est args kwf res,
    ECall est "fit" args kwf res ∈ log run.2 ->
    exists kw h name,
      ENew "TensorFlow" [] kw (Ok est) ∈ log run.2
      /\ kw_get "hyperparameters" kw = Some (VDict h)
      /\ kw_get "run_name" h = Some name
      /\ kw_get "job_name" kwf = Some name.

(** Every teardown of the run is on the object returned by a deployment
    of a model constructed in the run, on one [ml.m4.xlarge] instance,
    and is the last request of the run. *)
Definition tears_down_its_own (run : outcome unit * nb) : Prop :=
  forall predictor args kw res,
    ECall predictor "delete_endpoint" args kw res ∈ log run.2 ->
    exists model kwm kwd,
      ENew "TensorFlowModel" [] kwm (Ok model) ∈ log run.2
      /\ ECall model "deploy" [] kwd (Ok predictor) ∈ log run.2
      /\ kw_get "initial_instance_count" kwd = Some (VInt 1)
      /\ kw_get "instance_type" kwd = Some (VStr "ml.m4.xlarge")
      /\ last (log run.2) = Some (ECall predictor "delete_endpoint" args kw res).

End FurtherVocabulary.

(** The notebooks on the calm platform, run up to a given cell. *)
Definition before_configure : @nb demo :=
  (@run_cells demo (take 5 (@MaskRCNN.notebook demo example_operator))
     (@fresh_kernel demo tt)).2.

Definition before_configure_bert : @nb demo :=
  (@run_cells demo (take 6 (@BERT.notebook demo example_operator))
     (@fresh_kernel demo tt)).2.

Definition before_deploy : @nb demo :=
  (@run_cells demo (take 3 (@Deploy.notebook demo)) (@fresh_kernel demo tt)).2.

Definition example_bert_fit : event :=
  ECall (VObj "TensorFlow" "1") "fit" []
    [("inputs", VDict [("train", VObj "FileSystemInput" "1")]);
     ("job_name", VStr "smdataparallel-bert-tf2-fsx-2p3dn")]
    (Ok VNone).

Definition example_teardown : event :=
  ECall (VObj "Predictor" "1") "delete_endpoint" [] [] (Ok VNone).


(** * Proofs *)

(** ** Strings *)

Lemma append_cons (c : ascii) (s t : string) : String c s +:+ t = String c (s +:+ t).
Proof. reflexivity. Qed.

Lemma append_empty_l (t : string) : EmptyString +:+ t = t.
Proof. reflexivity. Qed.

Lemma append_empty_r (s : string) : s +:+ EmptyString = s.
Proof. induction s as [|c s IH]; [done|]. by rewrite append_cons, IH. Qed.

Lemma all_chars_app (p : ascii -> bool) (a b : string) :
  all_chars p (a +:+ b) = all_chars p a && all_chars p b.
Proof.
  induction a as [|c a IH]; [done|].
  rewrite append_cons. cbn [all_chars]. rewrite IH. by destruct (p c).
Qed.

Lemma all_chars_impl (p q : ascii -> bool) (s : string) :
  (forall c, p c = true -> q c = true) ->
  all_chars p s = true -> all_chars q s = true.
Proof.
  intros Hpq. induction s as [|c s IH]; [done|].
  cbn [all_chars]. intros [Hc Hs]%andb_prop. by rewrite (Hpq c Hc), IH.
Qed.

Lemma fields_word (sep : ascii -> bool) (a : string) :
  all_chars (fun c => negb (sep c)) a = true -> fields sep a = [a].
Proof.
  induction a as [|c a IH]; [done|].
  cbn [all_chars fields]. intros [Hc Ha]%andb_prop.
  apply negb_true_iff in Hc. by rewrite Hc, IH.
Qed.

Lemma fields_app (sep : ascii -> bool) (a : string) (c : ascii) (b : string) :
  all_chars (fun c => negb (sep c)) a = true -> sep c = true ->
  fields sep (a +:+ String c b) = a :: fields sep b.
Proof.
  intros Ha Hc. induction a as [|x a IH].
  - rewrite append_empty_l. cbn [fields]. by rewrite Hc.
  - cbn [all_chars] in Ha. apply andb_prop in Ha as [Hx Ha].
    apply negb_true_iff in Hx.
    rewrite append_cons. cbn [fields]. by rewrite Hx, (IH Ha).
Qed.

Lemma plain_char_not_blank (c : ascii) : plain_char c = true -> negb (is_blank c) = true.
Proof. destruct c as [[] [] [] [] [] [] [] []]; vm_compute; congruence. Qed.

Lemma plain_char_not_semicolon (c : ascii) :
  plain_char c = true -> negb (is_char ";" c) = true.
Proof. destruct c as [[] [] [] [] [] [] [] []]; vm_compute; congruence. Qed.

Lemma plain_word_inv (s : string) :
  plain_word s = true ->
  nonempty s = true
  /\ all_chars (fun c => negb (is_blank c)) s = true
  /\ all_chars (fun c => negb (is_char ";" c)) s = true.
Proof.
  unfold plain_word. intros [Hn Hp]%andb_prop. split; [done|].
  split; (eapply all_chars_impl; [|exact Hp]);
    auto using plain_char_not_blank, plain_char_not_semicolon.
Qed.

(** The build line with plain words in its three fields: two commands,
    the second one [bash build_and_push.sh] with the three words. *)
Lemma sh_commands_build_line (region image tag : string) :
  plain_word region = true -> plain_word image = true -> plain_word tag = true ->
  sh_commands (" chmod +x build_and_push.sh; bash build_and_push.sh "
               +:+ region +:+ " " +:+ image +:+ " " +:+ tag)
  = [["chmod"; "+x"; "build_and_push.sh"];
     ["bash"; "build_and_push.sh"; region; image; tag]].
Proof.
  intros (Hr0 & Hrb & Hrs)%plain_word_inv (Hi0 & Hib & His)%plain_word_inv
         (Ht0 & Htb & Hts)%plain_word_inv.
  unfold sh_commands.
  change (" chmod +x build_and_push.sh; bash build_and_push.sh "
          +:+ region +:+ " " +:+ image +:+ " " +:+ tag)
    with (" chmod +x build_and_push.sh"
          +:+ String ";" (" bash build_and_push.sh "
                          +:+ region +:+ String " " (image +:+ String " " tag))).
  rewrite fields_app by done.
  rewrite fields_word
    by (rewrite !all_chars_app; cbn [all_chars]; rewrite !all_chars_app; cbn [all_chars];
        rewrite Hrs, His, Hts; done).
  cbn [map].
  change (sh_words " chmod +x build_and_push.sh") with ["chmod"; "+x"; "build_and_push.sh"].
  do 2 f_equal.
  unfold sh_words.
  change (" bash build_and_push.sh " +:+ region +:+ String " " (image +:+ String " " tag))
    with (EmptyString +:+ String " " ("bash" +:+ String " " ("build_and_push.sh"
            +:+ String " " (region +:+ String " " (image +:+ String " " tag))))).
  rewrite !fields_app by done.
  rewrite (fields_word _ tag) by done.
  cbn [List.filter nonempty]. by rewrite Hr0, Hi0, Ht0.
Qed.

Lemma s3_uri_of_bucket (bucket key : string) :
  is_s3_uri ("s3://" +:+ bucket +:+ "/" +:+ key) = true.
Proof.
  unfold is_s3_uri.
  change ("s3://" +:+ bucket +:+ "/" +:+ key)
    with (String "s" (String "3" (String ":" (String "/" (String "/"
            (bucket +:+ String "/" key)))))).
  cbn [String.prefix String.length].
  destruct bucket; vm_compute; reflexivity.
Qed.

(** ** Rules for running cells

    One rule per primitive; the rules for requests let the platform
    answer anything. *)

Section Rules.
Context `{P : Platform}.

Lemma wp_ret {A} (a : A) s Q : Q (Ok a) s -> wp (ret a) s Q.
Proof. done. Qed.

Lemma wp_bind {A B} (m : M A) (k : A -> M B) s Q :
  wp m s (continue k Q) -> wp (bind m k) s Q.
Proof. unfold wp, continue, bind. by destruct (m s) as [[a|e] s']. Qed.

Lemma wp_var x s Q :
  match ns s !! x with
  | Some v => Q (Ok v) s
  | None => Q (Raise (NameError x)) s
  end -> wp (var x) s Q.
Proof. unfold wp, var. by destruct (ns s !! x). Qed.

Lemma wp_assign x v s Q :
  Q (Ok tt) (Nb (<[x := v]> (ns s)) (log s) (ext s)) -> wp (assign x v) s Q.
Proof. done. Qed.

Lemma wp_new cls args kw s Q :
  (forall r w, Q r (Nb (ns s) (log s ++ [ENew cls args kw r]) w)) ->
  wp (new cls args kw) s Q.
Proof. intros H. unfold wp, new. destruct (sdk_new _ _ _ _). apply H. Qed.

Lemma wp_call self meth args kw s Q :
  (forall r w, Q r (Nb (ns s) (log s ++ [ECall self meth args kw r]) w)) ->
  wp (call self meth args kw) s Q.
Proof. intros H. unfold wp, call. destruct (sdk_call _ _ _ _ _). apply H. Qed.

(** The rule for a method call that keeps the platform's own answer. *)
Lemma wp_call_exact self meth args kw s Q :
  Q (sdk_call self meth args kw (ext s)).1
    (Nb (ns s)
        (log s ++ [ECall self meth args kw (sdk_call self meth args kw (ext s)).1])
        (sdk_call self meth args kw (ext s)).2) ->
  wp (call self meth args kw) s Q.
Proof. unfold wp, call. by destruct (sdk_call _ _ _ _ _). Qed.

Lemma wp_text self what s Q :
  (forall r w, Q r (Nb (ns s) (log s ++ [EText self what r]) w)) ->
  wp (text self what) s Q.
Proof. intros H. unfold wp, text. destruct (sdk_text _ _ _). apply H. Qed.

Lemma wp_bang t s Q :
  (forall status w,
     Q (Ok tt) (Nb (ns s) (log s ++ [EShell (default (raw_text t) (expand (ns s) t)) status]) w)) ->
  wp (bang t) s Q.
Proof. intros H. unfold wp, bang, system. destruct (shell _ _). apply H. Qed.

Lemma wp_with_open {A} path mode (body : pyval -> M A) s Q :
  wp (new "open" [VStr path; VStr mode] []) s
     (fun rf s1 =>
        match rf with
        | Ok f =>
            wp (body f) s1 (fun rb s2 =>
              wp (call f "close" [] []) s2 (fun rc s3 =>
                match rc with
                | Ok _ => Q rb s3
                | Raise e => Q (Raise e) s3
                end))
        | Raise e => Q (Raise e) s1
        end) ->
  wp (with_open path mode body) s Q.
Proof.
  unfold with_open, wp, bind.
  destruct (new _ _ _ s) as [[f|e] s1]; cbn [fst snd]; [|done].
  destruct (body f s1) as [rb s2]; cbn [fst snd].
  by destruct (call f "close" [] [] s2) as [[c|e] s3].
Qed.

Lemma wp_timed (c : M unit) s Q :
  wp c s (fun _ s' => Q (Ok tt) s') -> wp (timed c) s Q.
Proof. done. Qed.

Lemma wp_store_restore x s Q :
  match stored (ext s) x with
  | Some v => Q (Ok tt) (Nb (<[x := v]> (ns s)) (log s) (ext s))
  | None => Q (Ok tt) s
  end -> wp (Deploy.store_restore x) s Q.
Proof. unfold wp, Deploy.store_restore. by destruct (stored _ _). Qed.

Lemma wp_try_except_NameError {A} (body handler : M A) s Q :
  wp body s (fun r s' =>
    match r with
    | Raise (NameError _) => wp handler s' Q
    | _ => Q r s'
    end) -> wp (Deploy.try_except_NameError body handler) s Q.
Proof.
  unfold wp, Deploy.try_except_NameError.
  by destruct (body s) as [[a|[x|msg]] s'].
Qed.

End Rules.

(** The binding of [k] in a namespace written as a chain of assignments. *)
Ltac nb_find m k :=
  lazymatch m with
  | insert k ?v _ => constr:(Some v)
  | insert _ _ ?m' => nb_find m' k
  | _ => constr:(m !! k)
  end.

Ltac nb_lookup :=
  repeat match goal with
    | |- context [@lookup string pyval _ _ ?k (insert ?k' ?v ?m)] =>
        let r := nb_find (insert k' v m) k in
        progress change (insert k' v m !! k) with r
    | |- context [@lookup string pyval _ _ ?k ∅] => rewrite (lookup_empty k)
    end.

(** The same for a namespace whose older bindings are known only through
    hypotheses. *)
Ltac nb_lookup_open :=
  repeat first
    [ rewrite lookup_insert_eq
    | rewrite lookup_insert_ne by done
    | rewrite lookup_empty
    | match goal with
      | H : ns ?s !! ?x = _ |- context [ns ?s !! ?x] => rewrite H
      end ].

Ltac nb_tidy :=
  cbv beta iota delta [continue];
  cbn [ns log ext app fst snd default from_option id expand raw_text
       mbind option_bind py_str docker_image_template build_and_push_line].

Ltac nb_unfold_head :=
  lazymatch goal with
  | |- wp ?m _ _ => let h := get_head m in unfold h at 1
  end.

Ltac nb_step look :=
  lazymatch goal with
  | |- wp (bind _ _) _ _ => apply wp_bind
  | |- wp (ret _) _ _ => apply wp_ret
  | |- wp (assign _ _) _ _ => apply wp_assign
  | |- wp (var _) _ _ => apply wp_var; cbn [ns]; look
  | |- wp (new _ _ _) _ _ => apply wp_new; intros [?obj|?err] ?w
  | |- wp (call _ _ _ _) _ _ => apply wp_call; intros [?res|?err] ?w
  | |- wp (text _ _) _ _ => apply wp_text; intros [?txt|?err] ?w
  | |- wp (bang _) _ _ =>
      apply wp_bang; intros ?status ?w;
      cbn [ns expand mbind option_bind build_and_push_line]; look
  | |- wp (with_open _ _ _) _ _ => apply wp_with_open
  | |- wp (timed _) _ _ => apply wp_timed
  | |- wp (Deploy.store_restore _) _ _ => apply wp_store_restore; cbn [ext]
  | |- wp (Deploy.try_except_NameError _ _) _ _ => apply wp_try_except_NameError
  | |- wp (fstring _) _ _ => cbn [fstring docker_image_template]
  | |- wp (run_cells _) _ _ => cbn [run_cells]
  | |- wp _ _ _ => nb_unfold_head
  end; nb_tidy.

(** Run to the end, on a fresh kernel ([nb_run]) or from a state known
    through hypotheses ([nb_run_open]). *)
Ltac nb_run := repeat nb_step nb_lookup.
Ltac nb_run_open := repeat nb_step nb_lookup_open.

(** Put a goal about [(m s).1] and [(m s).2] in [wp] form. *)
Ltac nb_start :=
  lazymatch goal with
  | |- context [snd (?m ?s)] =>
      pattern (fst (m s)), (snd (m s));
      lazymatch goal with |- ?Q _ _ => change (wp m s Q) end
  end.

(** Case analysis on membership in an explicit log. *)
Ltac nb_member H :=
  repeat (apply elem_of_cons in H as [H|H]; [try discriminate H|]);
  try (apply elem_of_nil in H; contradiction).

Ltac nb_sublist :=
  repeat first [apply sublist_nil | apply sublist_skip | apply sublist_cons].

Ltac nb_elem := apply list_elem_of_In; cbn [In]; auto 40.

Ltac nb_failures :=
  cbn [failures omap list_omap raised last removelast existsb is_fit
       first_failure after_failure].

(** ** Whole runs of the training notebooks *)

Section TrainingRuns.
Context `{P : Platform}.

(** C6, as amended: whatever strings the operator supplies (the shipped
    placeholders included) and whatever the platform answers, a training
    run validates nothing and tries nothing twice.  It ends normally
    exactly when no request came back with an exception.  At most one
    request does.  When it is a request outside session setup, its
    exception ends the run at once.  When it is a request of session
    setup, which runs under [%%time], the cell ends normally, the run
    goes on through the shell lines of the next cells and ends in the
    configuration cell with [NameError] on [account] or on [region]. *)
Theorem failures_end_the_run_or_the_timed_cell (op : operator) (w : world) :
  ends_as_the_kernel_does (maskrcnn_run op w)
  /\ ends_as_the_kernel_does (bert_run op w).
Proof.
  unfold ends_as_the_kernel_does, maskrcnn_run, bert_run.
  split; nb_start; unfold fresh_kernel, MaskRCNN.notebook, BERT.notebook.
  all: nb_run; nb_failures.
  all: try reflexivity.
  all: eexists _, _; do 3 (split; [reflexivity|]).
  all: first
         [ left; by repeat split
         | right; split; [reflexivity|]; split; [by left|]; by split
         | right; split; [reflexivity|]; split; [by right|]; by split ].
Qed.

(** C7: in every training run, of either notebook, the input-channel
    mapping passed to job submission has exactly one channel, named
    "train", and its value is the file-system reference (id, path,
    access mode). *)
Theorem train_is_the_only_channel (op : operator) (w : world) :
  binds_only_train op (maskrcnn_run op w)
  /\ binds_only_train op (bert_run op w).
Proof.
  unfold binds_only_train, maskrcnn_run, bert_run.
  split; nb_start; unfold fresh_kernel, MaskRCNN.notebook, BERT.notebook.
  all: nb_run; intros ? ? ? ? H; nb_member H.
  all: simplify_eq; eexists _, _; split; [reflexivity|].
  all: split; [nb_elem|]; cbn; done.
Qed.

(** X13: job submission closes the training pipeline of either
    notebook.  A run in which no request came back with an exception
    calls [fit].  A run that calls [fit] has, by then, completed session
    setup, the image build and push, the assembly of the job descriptor
    and the input binding, each without an exception; [fit] receives the
    descriptor's estimator and the channel mapping and no other
    argument, nothing is requested after it, and the run's outcome is
    the one [fit] reports. *)
Theorem submission_is_the_final_step (op : operator) (w : world) :
  fit_closes_the_run "PyTorch" op (maskrcnn_run op w)
  /\ fit_closes_the_run "TensorFlow" op (bert_run op w).
Proof.
  unfold fit_closes_the_run, fit_comes_last, maskrcnn_run, bert_run.
  split; nb_start; unfold fresh_kernel, MaskRCNN.notebook, BERT.notebook.
  all: nb_run; rewrite ?append_empty_r; cbn.
  all: split; [|by intros H].
  all: intros H; try discriminate H.
  all: eexists _, _, _, _, _, _, _, _, _; split; [reflexivity|].
  all: split; [nb_sublist|done].
Qed.

(** C10: in the MaskRCNN notebook the image reference is built from the
    account and the region of session setup; assigning the operator's
    literal to [region] on the next line leaves the reference as built,
    so the estimator is given the registry of the session's region. *)
Theorem image_uri_keeps_session_region (op : operator) (w : world) :
  image_follows_session_region op (maskrcnn_run op w).
Proof.
  unfold image_follows_session_region, maskrcnn_run.
  nb_start; unfold fresh_kernel, MaskRCNN.notebook.
  nb_run; rewrite ?append_empty_r; intros ? ? ? H; nb_member H.
  all: simplify_eq; eexists _, _, _, _.
  all: split; [nb_elem|]; split; [nb_elem|]; split; [reflexivity|].
  all: nb_lookup; done.
Qed.

End TrainingRuns.

(** ** Single cells, from any state *)

Section Cells.
Context `{P : Platform}.

Section EstimatorCell.
Variable s : nb.
Variables role image count type session hyper subnets groups : pyval.
Hypothesis Hrole : ns s !! "role" = Some role.
Hypothesis Himage : ns s !! "docker_image" = Some image.
Hypothesis Hcount : ns s !! "instance_count" = Some count.
Hypothesis Htype : ns s !! "instance_type" = Some type.
Hypothesis Hsession : ns s !! "sagemaker_session" = Some session.
Hypothesis Hhyper : ns s !! "hyperparameters" = Some hyper.
Hypothesis Hsubnets : ns s !! "subnets" = Some subnets.
Hypothesis Hgroups : ns s !! "security_group_ids" = Some groups.

(** C1: whatever instance type, instance count and hyperparameter
    mapping the namespace holds (the other arguments of the call being
    bound), the estimator cell of either notebook puts exactly these
    values in the job descriptor: the keyword record of the estimator's
    construction holds them unchanged, the mapping as a whole. *)
Theorem estimator_passes_values_through :
  passes_through "PyTorch" s (MaskRCNN.make_estimator s)
  /\ passes_through "TensorFlow" s (BERT.make_estimator s).
Proof.
  unfold passes_through.
  split; nb_start; nb_run_open; eexists _, _; (split; [reflexivity|]);
    rewrite ?Htype, ?Hcount, ?Hhyper; done.
Qed.

(** C3: the job descriptor of either notebook enables the data-parallel
    distribution flag and sets no other flag. *)
Theorem distribution_sets_one_flag :
  enables_data_parallel_only "PyTorch" s (MaskRCNN.make_estimator s)
  /\ enables_data_parallel_only "TensorFlow" s (BERT.make_estimator s).
Proof.
  unfold enables_data_parallel_only.
  split; nb_start; nb_run_open; eexists _, _, _; (split; [reflexivity|]); done.
Qed.

End EstimatorCell.

(** C2: whatever file-system id the namespace holds and whatever path
    and access mode the operator supplies, the input cell of either
    notebook builds the file-system input from exactly these three
    values. *)
Theorem file_system_input_round_trip (op : operator) (s : nb) (fsid : pyval) :
  ns s !! "file_system_id" = Some fsid ->
  binds_file_system fsid (VStr (op_directory_path op)) (VStr (op_access_mode op))
    s (MaskRCNN.bind_input op s)
  /\ binds_file_system fsid (VStr (op_directory_path op)) (VStr (op_access_mode op))
       s (BERT.bind_input op s).
Proof.
  intros Hid. unfold binds_file_system.
  split; nb_start; nb_run_open; eexists _, _; (split; [reflexivity|]);
    do 3 (split; [done|]); intros ? Hfs; simplify_eq; by nb_lookup_open.
Qed.

(** C5, as amended: when region, image name and tag are plain words
    (letters, digits, [- _ . / :]), the build cell of either notebook
    hands the script exactly these three words, in this order. *)
Theorem build_and_push_hands_over_plain_words (s : nb) (region image tag : string) :
  ns s !! "region" = Some (VStr region) ->
  ns s !! "image" = Some (VStr image) ->
  ns s !! "tag" = Some (VStr tag) ->
  plain_word region = true -> plain_word image = true -> plain_word tag = true ->
  hands_over region image tag s (MaskRCNN.build_and_push s)
  /\ hands_over region image tag s (BERT.build_and_push s).
Proof.
  intros Hr Hi Ht Hpr Hpi Hpt. unfold hands_over.
  split; nb_start; nb_run_open; eexists _, _; (split; [reflexivity|]);
    by rewrite append_empty_r, sh_commands_build_line.
Qed.

(** X2.  Outside a top-to-bottom run: executing the MaskRCNN configuration
    cell a second time builds the image reference from the literal that
    the first execution left in [region]. *)
Lemma configure_again_uses_the_literal (op : operator) (s : nb)
    (account region image tag : string) :
  ns s !! "account" = Some (VStr account) ->
  ns s !! "region" = Some (VStr region) ->
  ns s !! "image" = Some (VStr image) ->
  ns s !! "tag" = Some (VStr tag) ->
  ns (MaskRCNN.configure op s).2 !! "docker_image"
    = Some (VStr (account +:+ ".dkr.ecr." +:+ region +:+ ".amazonaws.com/"
                  +:+ image +:+ ":" +:+ tag))
  /\ ns (run_cells [MaskRCNN.configure op; MaskRCNN.configure op] s).2 !! "docker_image"
     = Some (VStr (account +:+ ".dkr.ecr." +:+ op_region op +:+ ".amazonaws.com/"
                   +:+ image +:+ ":" +:+ tag)).
Proof.
  intros Ha Hr Hi Ht.
  split; nb_start; nb_run_open; nb_lookup_open; by rewrite append_empty_r.
Qed.

(** X1.  Whatever the platform, the teardown is requested on the very object
    that the deployment returned, with nothing requested in between. *)
Lemma teardown_targets_the_deployed_endpoint (s : nb) (model : pyval) :
  ns s !! "model" = Some model ->
  let run := run_cells [Deploy.deploy; Deploy.cleanup] s in
  (exists e,
     log run.2 = log s ++ [ECall model "deploy" []
                             [("initial_instance_count", VInt 1);
                              ("instance_type", VStr "ml.m4.xlarge")] (Raise e)]
     /\ run.1 = Raise e)
  \/ (exists predictor r,
        log run.2 = log s ++ [ECall model "deploy" []
                                [("initial_instance_count", VInt 1);
                                 ("instance_type", VStr "ml.m4.xlarge")] (Ok predictor);
                              ECall predictor "delete_endpoint" [] [] r]).
Proof.
  intros Hm. cbv zeta. nb_start. nb_run_open.
  - right. eexists _, _. by rewrite <- app_assoc.
  - right. eexists _, _. by rewrite <- app_assoc.
  - left. by eexists.
Qed.

End Cells.

(** ** The deployment notebook *)

Section DeployRuns.
Context `{P : Platform}.

(** C9, as amended: the model artifact is resolved by exactly one of two
    branches.  A stored [model_data] is used as it is, whatever it is,
    and nothing is copied.  Without one, the public artifact is copied
    into the default bucket and [model_data] is the URI of the copy,
    [s3://] + bucket + [/] + key, a non-empty S3 URI. *)
Theorem model_data_resolution (w : world) :
  match stored w "model_data" with
  | Some v => models_built_on v (deploy_run w) /\ no_transfer (deploy_run w)
  | None => models_built_on_copy (deploy_run w)
  end.
Proof.
  destruct (stored w "model_data") as [v|] eqn:Hst.
  - split; unfold models_built_on, no_transfer, deploy_run;
      nb_start; unfold fresh_kernel, Deploy.notebook.
    all: repeat (nb_step nb_lookup; rewrite ?Hst).
    all: first [intros ? ? ? ? ? H | intros ? ? ? H]; nb_member H; simplify_eq; auto.
  - unfold models_built_on_copy, deploy_run.
    nb_start; unfold fresh_kernel, Deploy.notebook.
    repeat (nb_step nb_lookup; rewrite ?Hst).
    all: intros ? ? ? H; nb_member H; simplify_eq.
    all: eexists _, _, _, _, _, _, _; split; [reflexivity|].
    all: split; [apply s3_uri_of_bucket | nb_sublist].
Qed.

End DeployRuns.

(** ** Endpoints on the hosting service *)

(** A deployment that succeeds adds one endpoint, which was not active. *)
Lemma deploy_activates_one_endpoint (s : @nb hosting_service) :
  (@Deploy.deploy hosting_service s).1 = Ok tt ->
  exists n, (n ∉ active (ext s))
            /\ active (ext (@Deploy.deploy hosting_service s).2) = {[n]} ∪ active (ext s).
Proof.
  nb_start. unfold Deploy.deploy.
  apply wp_bind, wp_var. destruct (ns s !! "model") as [model|]; nb_tidy; [|done].
  apply wp_bind, wp_call_exact. cbn [sdk_call hosting_service]. unfold hosting_call.
  cbn [String.eqb Ascii.eqb Bool.eqb].
  destruct (upcoming (ext s)) as [|n rest]; nb_tidy; [done|].
  destruct (decide (n ∈ active (ext s))); nb_tidy; [done|].
  apply wp_assign. intros _. by exists n.
Qed.

(** C4: on the hosting service, deploying and tearing down at once
    leaves the set of active endpoints as it was, from any state of the
    notebook and of the service. *)
Theorem deploy_then_teardown_restores_endpoints (s : @nb hosting_service) :
  active (ext (@run_cells hosting_service deploy_and_teardown s).2) = active (ext s).
Proof.
  nb_start. unfold deploy_and_teardown. cbn [run_cells].
  apply wp_bind. unfold Deploy.deploy.
  apply wp_bind, wp_var. destruct (ns s !! "model") as [model|]; nb_tidy; [|done].
  apply wp_bind, wp_call_exact. cbn [sdk_call hosting_service]. unfold hosting_call.
  cbn [String.eqb Ascii.eqb Bool.eqb].
  destruct (upcoming (ext s)) as [|n rest]; nb_tidy; [done|].
  destruct (decide (n ∈ active (ext s))) as [Hin|Hout]; nb_tidy; [done|].
  apply wp_assign. nb_tidy.
  apply wp_bind. unfold Deploy.cleanup.
  apply wp_bind, wp_var. cbn [ns]. rewrite lookup_insert_eq. nb_tidy.
  apply wp_bind, wp_call_exact. cbn [sdk_call hosting_service ext]. unfold hosting_call.
  cbn [String.eqb Ascii.eqb Bool.eqb active upcoming].
  destruct (decide (n ∈ {[n]} ∪ active (ext s))) as [_|Hno]; nb_tidy.
  - apply wp_ret. nb_tidy. apply wp_ret. cbn [ext active].
    apply set_eq. intros x. rewrite elem_of_difference, elem_of_union, !elem_of_singleton.
    split; [tauto|]. intros Hx. split; [tauto|]. by intros ->.
  - exfalso. apply Hno, elem_of_union_l. by apply elem_of_singleton.
Qed.

(** ** The statements at concrete inputs *)

(** C5, as stated, fails: with the repository named "mask rcnn" the
    line is read as four arguments, the name split in two. *)
Lemma build_and_push_splits_a_spaced_name :
  ns spaced_name !! "region" = Some (VStr "us-west-2")
  /\ ns spaced_name !! "image" = Some (VStr "mask rcnn")
  /\ ns spaced_name !! "tag" = Some (VStr "pt1.8")
  /\ (exists line status,
        log (MaskRCNN.build_and_push spaced_name).2 = [EShell line status]
        /\ script_args "build_and_push.sh" (sh_commands line)
           = Some ["us-west-2"; "mask"; "rcnn"; "pt1.8"])
  /\ ~ hands_over "us-west-2" "mask rcnn" "pt1.8" spaced_name
         (MaskRCNN.build_and_push spaced_name).
Proof.
  repeat split; try (vm_compute; reflexivity).
  - eexists _, _. split; vm_compute; reflexivity.
  - intros (line & status & Hlog & Hargs).
    vm_compute in Hlog. injection Hlog as <- _.
    vm_compute in Hargs. discriminate Hargs.
Qed.

(** C6, as stated, fails: when the execution role is refused, the
    session-setup cell, under [%%time], ends normally; the run goes on
    and ends in the configuration cell with [NameError] on [account],
    which no request came back with. *)
Lemma refused_role_ends_in_a_name_error :
  (@maskrcnn_run role_refused shipped_maskrcnn tt).1 = Raise (NameError "account")
  /\ failures (log (@maskrcnn_run role_refused shipped_maskrcnn tt).2)
     = [Emitted "AccessDenied"]
  /\ ~ fails_only_from_outside (@maskrcnn_run role_refused shipped_maskrcnn tt).
Proof.
  assert (Hrun : (@maskrcnn_run role_refused shipped_maskrcnn tt).1 = Raise (NameError "account"))
    by (vm_compute; reflexivity).
  assert (Hfail : failures (log (@maskrcnn_run role_refused shipped_maskrcnn tt).2)
                  = [Emitted "AccessDenied"])
    by (vm_compute; reflexivity).
  split; [exact Hrun|]. split; [exact Hfail|].
  unfold fails_only_from_outside. rewrite Hrun, Hfail. intros [Heq _]. discriminate Heq.
Qed.

(** C9, as stated, fails: a restored [model_data] is used as it is, so
    the model object is constructed on a value that is no S3 URI when
    the stored one is none. *)
Lemma restored_model_data_need_not_be_an_s3_uri :
  stored (Platform := calm stored_local_path) tt "model_data"
    = Some (VStr "/home/ec2-user/SageMaker/model.tar.gz")
  /\ (@deploy_run (calm stored_local_path) tt).1 = Ok tt
  /\ example_model ∈ log (@deploy_run (calm stored_local_path) tt).2
  /\ is_s3_uri "/home/ec2-user/SageMaker/model.tar.gz" = false
  /\ ~ models_built_on_s3_uri (@deploy_run (calm stored_local_path) tt).
Proof.
  assert (Hin : example_model ∈ log (@deploy_run (calm stored_local_path) tt).2)
    by (apply list_elem_of_In; vm_compute; auto).
  repeat split; [done|].
  intros Hall. destruct (Hall _ _ _ Hin) as (uri & Huri & Hs3).
  vm_compute in Huri. injection Huri as <-. discriminate Hs3.
Qed.

Lemma estimator_passes_values_through_witness :
  passes_through "PyTorch" before_estimator (MaskRCNN.make_estimator before_estimator)
  /\ passes_through "TensorFlow" before_estimator (BERT.make_estimator before_estimator).
Proof.
  eapply (@estimator_passes_values_through demo before_estimator);
    vm_compute; reflexivity.
Defined.

Lemma file_system_input_round_trip_witness :
  binds_file_system (VStr "fs-0bYYYYYY") (VStr "/fsx/mask_rcnn/PyTorch") (VStr "ro")
    before_estimator (MaskRCNN.bind_input example_operator before_estimator)
  /\ binds_file_system (VStr "fs-0bYYYYYY") (VStr "/fsx/mask_rcnn/PyTorch") (VStr "ro")
       before_estimator (BERT.bind_input example_operator before_estimator).
Proof.
  apply (@file_system_input_round_trip demo example_operator before_estimator).
  vm_compute; reflexivity.
Defined.

Lemma distribution_sets_one_flag_witness :
  enables_data_parallel_only "PyTorch" before_estimator
    (MaskRCNN.make_estimator before_estimator)
  /\ enables_data_parallel_only "TensorFlow" before_estimator
       (BERT.make_estimator before_estimator).
Proof.
  eapply (@distribution_sets_one_flag demo before_estimator);
    vm_compute; reflexivity.
Defined.

Lemma build_and_push_hands_over_plain_words_witness :
  hands_over "us-west-2" "mask-rcnn-smdataparallel-sagemaker" "pt1.8"
    before_build (MaskRCNN.build_and_push before_build)
  /\ hands_over "us-west-2" "mask-rcnn-smdataparallel-sagemaker" "pt1.8"
       before_build (BERT.build_and_push before_build).
Proof.
  apply (@build_and_push_hands_over_plain_words demo before_build);
    vm_compute; reflexivity.
Defined.

Lemma train_is_the_only_channel_witness :
  example_fit ∈ log (@maskrcnn_run demo example_operator tt).2
  /\ exists fs kwf,
       kw_get "inputs" example_submission = Some (VDict [("train", fs)])
       /\ ENew "FileSystemInput" [] kwf (Ok fs) ∈ log (@maskrcnn_run demo example_operator tt).2
       /\ kw_get "file_system_id" kwf = Some (VStr "fs-0bYYYYYY")
       /\ kw_get "directory_path" kwf = Some (VStr "/fsx/mask_rcnn/PyTorch")
       /\ kw_get "file_system_access_mode" kwf = Some (VStr "ro").
Proof.
  assert (H : example_fit ∈ log (@maskrcnn_run demo example_operator tt).2)
    by (apply list_elem_of_In; vm_compute; auto 40).
  split; [exact H|].
  exact (proj1 (@train_is_the_only_channel demo example_operator tt) _ _ _ _ H).
Defined.

Lemma submission_is_the_final_step_witness :
  (existsb is_fit (log (@maskrcnn_run demo example_operator tt).2) = true
   /\ existsb is_fit (log (@bert_run demo example_operator tt).2) = true)
  /\ (exists session region status kwe est kwf fs jn res,
        last (log (@maskrcnn_run demo example_operator tt).2)
          = Some (ECall est "fit" [] [("inputs", VDict [("train", fs)]); ("job_name", jn)] res)
        /\ sublist
             [EText (Some session) "region_name" (Ok region);
              EShell (" chmod +x build_and_push.sh; bash build_and_push.sh "
                      +:+ region +:+ " " +:+ "mask-rcnn-smdataparallel-sagemaker"
                      +:+ " " +:+ "pt1.8") status;
              ENew "PyTorch" [] kwe (Ok est);
              ENew "FileSystemInput" [] kwf (Ok fs)]
             (removelast (log (@maskrcnn_run demo example_operator tt).2))
        /\ failures (removelast (log (@maskrcnn_run demo example_operator tt).2)) = []
        /\ existsb is_fit (removelast (log (@maskrcnn_run demo example_operator tt).2)) = false
        /\ (@maskrcnn_run demo example_operator tt).1
           = match res with Ok _ => Ok tt | Raise e => Raise e end)
  /\ (exists session region status kwe est kwf fs jn res,
        last (log (@bert_run demo example_operator tt).2)
          = Some (ECall est "fit" [] [("inputs", VDict [("train", fs)]); ("job_name", jn)] res)
        /\ sublist
             [EText (Some session) "region_name" (Ok region);
              EShell (" chmod +x build_and_push.sh; bash build_and_push.sh "
                      +:+ region +:+ " " +:+ "mask-rcnn-smdataparallel-sagemaker"
                      +:+ " " +:+ "pt1.8") status;
              ENew "TensorFlow" [] kwe (Ok est);
              ENew "FileSystemInput" [] kwf (Ok fs)]
             (removelast (log (@bert_run demo example_operator tt).2))
        /\ failures (removelast (log (@bert_run demo example_operator tt).2)) = []
        /\ existsb is_fit (removelast (log (@bert_run demo example_operator tt).2)) = false
        /\ (@bert_run demo example_operator tt).1
           = match res with Ok _ => Ok tt | Raise e => Raise e end).
Proof.
  assert (Hm : failures (log (@maskrcnn_run demo example_operator tt).2) = [])
    by (vm_compute; reflexivity).
  assert (Hb : failures (log (@bert_run demo example_operator tt).2) = [])
    by (vm_compute; reflexivity).
  destruct (@submission_is_the_final_step demo example_operator tt)
    as [[Hlast_m Hfit_m] [Hlast_b Hfit_b]].
  split; [split; [exact (Hfit_m Hm) | exact (Hfit_b Hb)]|].
  split; [exact (Hlast_m (Hfit_m Hm)) | exact (Hlast_b (Hfit_b Hb))].
Defined.

Lemma model_data_resolution_witness :
  (models_built_on (VStr "/home/ec2-user/SageMaker/model.tar.gz")
     (@deploy_run (calm stored_local_path) tt)
   /\ no_transfer (@deploy_run (calm stored_local_path) tt))
  /\ models_built_on_copy (@deploy_run demo tt).
Proof.
  split.
  - exact (@model_data_resolution (calm stored_local_path) tt).
  - exact (@model_data_resolution demo tt).
Defined.

Lemma image_uri_keeps_session_region_witness :
  example_estimator ∈ log (@maskrcnn_run demo example_operator tt).2
  /\ exists client session account region,
       EText (Some client) "get_caller_identity.Account" (Ok account)
         ∈ log (@maskrcnn_run demo example_operator tt).2
       /\ EText (Some session) "region_name" (Ok region)
            ∈ log (@maskrcnn_run demo example_operator tt).2
       /\ kw_get "image_uri" example_descriptor
          = Some (VStr (account +:+ ".dkr.ecr." +:+ region +:+ ".amazonaws.com/"
                        +:+ "mask-rcnn-smdataparallel-sagemaker" +:+ ":" +:+ "pt1.8"))
       /\ ns (@maskrcnn_run demo example_operator tt).2 !! "docker_image"
          = Some (VStr (account +:+ ".dkr.ecr." +:+ region +:+ ".amazonaws.com/"
                        +:+ "mask-rcnn-smdataparallel-sagemaker" +:+ ":" +:+ "pt1.8"))
       /\ ns (@maskrcnn_run demo example_operator tt).2 !! "region" = Some (VStr "<REGION>").
Proof.
  assert (H : example_estimator ∈ log (@maskrcnn_run demo example_operator tt).2)
    by (apply list_elem_of_In; vm_compute; auto 40).
  split; [exact H|].
  exact (@image_uri_keeps_session_region demo example_operator tt _ _ _ H).
Defined.

(** * Further properties *)

(** ** Splitting and joining *)

Lemma fields_not_nil (sep : ascii -> bool) (s : string) : fields sep s <> [].
Proof.
  induction s as [|c s IH]; [done|]. cbn [fields].
  destruct (sep c); [done|]. by destruct (fields sep s).
Qed.

Lemma fields_free (sep : ascii -> bool) (s : string) :
  Forall (fun w => all_chars (fun c => negb (sep c)) w = true) (fields sep s).
Proof.
  induction s as [|c s IH]; [by repeat constructor|]. cbn [fields].
  destruct (sep c) eqn:Hc; [by constructor|].
  destruct (fields sep s) as [|w ws]; [repeat constructor; cbn; by rewrite Hc|].
  inversion IH as [|? ? Hw Hws]; subst. constructor; [|done].
  cbn [all_chars]. by rewrite Hc, Hw.
Qed.

Lemma py_join_cons (sep p : string) (rest : list string) :
  rest <> [] -> py_join sep (p :: rest) = p +:+ sep +:+ py_join sep rest.
Proof. by destruct rest. Qed.

Lemma split_then_join (c : ascii) (s : string) :
  py_join (String c EmptyString) (py_split c s) = s.
Proof.
  unfold py_split. induction s as [|x s IH]; [done|]. cbn [fields].
  pose proof (fields_not_nil (is_char c) s) as Hne.
  destruct (is_char c x) eqn:Hx.
  - rewrite py_join_cons by done. rewrite IH.
    apply Ascii.eqb_eq in Hx as ->. done.
  - destruct (fields (is_char c) s) as [|w ws]; [done|].
    destruct ws as [|w' ws].
    + cbn [py_join] in *. by rewrite IH.
    + rewrite py_join_cons in IH by done. rewrite py_join_cons by done.
      rewrite append_cons. by rewrite IH.
Qed.

(** Split on a namespace lookup that no hypothesis settles. *)
Ltac nb_case_lookup :=
  match goal with
  | |- context [match ns ?s !! ?x with _ => _ end] => destruct (ns s !! x) eqn:?
  end.

(** ** Cells and runs *)

Section FurtherProperties.
Context `{P : Platform}.

(** X3: executing the BERT configuration cell a second time builds the
    same image reference as the first time: the cell leaves [region] as
    session setup bound it. *)
Theorem bert_configure_again_is_stable (op : operator) (s : nb) (account region image tag : pyval) :
  ns s !! "account" = Some account ->
  ns s !! "region" = Some region ->
  ns s !! "image" = Some image ->
  ns s !! "tag" = Some tag ->
  ns (run_cells [BERT.configure op; BERT.configure op] s).2 !! "docker_image"
    = ns (BERT.configure op s).2 !! "docker_image"
  /\ ns (BERT.configure op s).2 !! "docker_image"
     = Some (VStr (py_str account +:+ ".dkr.ecr." +:+ py_str region +:+ ".amazonaws.com/"
                   +:+ py_str image +:+ ":" +:+ py_str tag))
  /\ ns (BERT.configure op s).2 !! "region" = Some region.
Proof.
  intros Ha Hr Hi Ht.
  assert (H1 : ns (BERT.configure op s).2 !! "docker_image"
     = Some (VStr (py_str account +:+ ".dkr.ecr." +:+ py_str region +:+ ".amazonaws.com/"
                   +:+ py_str image +:+ ":" +:+ py_str tag))).
  { nb_start; nb_run_open; nb_lookup_open; by rewrite append_empty_r. }
  split; [|split; [exact H1|]].
  - rewrite H1. nb_start; nb_run_open; nb_lookup_open; by rewrite append_empty_r.
  - nb_start; nb_run_open; by nb_lookup_open.
Qed.

(** X4: when one of the eight names that the estimator cell reads is
    unbound, the cell of either notebook raises [NameError] on an
    unbound name, requests nothing from the SDK and leaves the notebook
    state as it was. *)
Theorem estimator_cell_needs_its_names (s : nb) (x : string) :
  x ∈ estimator_reads -> ns s !! x = None ->
  stops_on_missing_name s (MaskRCNN.make_estimator s)
  /\ stops_on_missing_name s (BERT.make_estimator s).
Proof.
  intros Hx Hnone. unfold stops_on_missing_name.
  split; nb_start; unfold MaskRCNN.make_estimator, BERT.make_estimator.
  all: repeat first [nb_step nb_lookup_open | nb_case_lookup; nb_tidy].
  all: try (eexists; (split; [|split]); cycle 2;
            [split; reflexivity | unfold estimator_reads; nb_elem | assumption]).
  all: exfalso; unfold estimator_reads in Hx; nb_member Hx; congruence.
Qed.

(** X5: [copy_model_from_public_bucket] closes every file it opened, in
    the order it opened them, also when the download, the upload or a
    request between them raises. *)
Theorem copy_closes_what_it_opens (s : nb) :
  exists evs,
    log (Deploy.copy_model_from_public_bucket s).2 = log s ++ evs
    /\ closed evs = opened evs.
Proof.
  nb_start. nb_run_open.
  all: rewrite <- ?app_assoc; cbn [app]; eexists; split; [reflexivity|]; reflexivity.
Qed.

(** X6: a run of the deployment notebook swallows no failure: it ends
    normally only if no request raised, and otherwise it ends with the
    last exception a request came back with.  The [except NameError]
    handles the missing [model_data] and nothing else. *)
Theorem deploy_run_surfaces_failures (w : world) :
  surfaces_failures (deploy_run w).
Proof.
  unfold surfaces_failures, deploy_run.
  nb_start; unfold fresh_kernel, Deploy.notebook.
  destruct (stored w "model_data") as [v|] eqn:Hst.
  all: repeat (nb_step nb_lookup; rewrite ?Hst).
  all: nb_failures; reflexivity.
Qed.

(** X7: the session-setup cell of the MaskRCNN notebook always ends
    normally, and when the execution role was answered in it,
    [role_name] is the role split at its slashes: a non-empty list (so
    [role_name[-1]] is defined) of parts without a slash that, joined
    by slashes, give [role] back. *)
Theorem role_name_is_the_split_role (s : nb) :
  splits_the_role s (MaskRCNN.session_setup s).
Proof.
  unfold splits_the_role. nb_start. nb_run_open.
  all: split; [reflexivity|]; rewrite <- ?app_assoc; cbn [app].
  all: eexists; split; [reflexivity|]; intros role Hrole; nb_member Hrole.
  all: simplify_eq; eexists; nb_lookup_open; do 2 (split; [reflexivity|]).
  all: split; [apply fields_not_nil|]; split; [apply split_then_join|].
  all: unfold py_split; eapply Forall_impl; [apply fields_free|].
  all: intros p Hp; unfold has_slash; by rewrite Hp.
Qed.

(** X8: a training run of either notebook in which no request came
    back with an exception runs to its end and submits the job,
    whatever exit status the shell lines report: a failed build does
    not stop the run. *)
Theorem run_submits_whatever_the_shell_reports (op : operator) (w : world) :
  submits_unless_a_request_fails (maskrcnn_run op w)
  /\ submits_unless_a_request_fails (bert_run op w).
Proof.
  unfold submits_unless_a_request_fails, submits, maskrcnn_run, bert_run.
  split; nb_start; unfold fresh_kernel, MaskRCNN.notebook, BERT.notebook.
  all: nb_run; nb_failures; intros H; try discriminate H.
  all: split; [reflexivity|]; eexists _, _, _; reflexivity.
Qed.


(** X10: in a training run of either notebook, the estimator is given
    the session object and the execution role obtained at session setup
    and the operator's subnets and security groups, unchanged. *)
Theorem estimator_carries_session_and_network (op : operator) (w : world) :
  carries_session_and_network "PyTorch" op (maskrcnn_run op w)
  /\ carries_session_and_network "TensorFlow" op (bert_run op w).
Proof.
  unfold carries_session_and_network, maskrcnn_run, bert_run.
  split; nb_start; unfold fresh_kernel, MaskRCNN.notebook, BERT.notebook.
  all: nb_run; intros ? ? ? H; nb_member H.
  all: simplify_eq; eexists _, _; split; [nb_elem|]; split; [nb_elem|]; done.
Qed.

(** X11: in a run of the BERT notebook, the job name given to [fit] is
    the [run_name] hyperparameter of the estimator that [fit] is called
    on. *)
Theorem bert_job_is_named_as_its_run (w : world) (op : operator) :
  job_named_as_run (bert_run op w).
Proof.
  unfold job_named_as_run, bert_run.
  nb_start; unfold fresh_kernel, BERT.notebook.
  nb_run; intros ? ? ? ? H; nb_member H.
  all: simplify_eq; eexists _, _, _; split; [nb_elem|]; done.
Qed.

(** X12: in a run of the deployment notebook, the endpoint torn down is
    the one returned by deploying, on one [ml.m4.xlarge] instance, the
    model constructed in the same run, and the teardown is the last
    request. *)
Theorem teardown_is_of_the_model_deployed (w : world) :
  tears_down_its_own (deploy_run w).
Proof.
  unfold tears_down_its_own, deploy_run.
  nb_start; unfold fresh_kernel, Deploy.notebook.
  destruct (stored w "model_data") as [v|] eqn:Hst.
  all: repeat (nb_step nb_lookup; rewrite ?Hst).
  all: intros ? ? ? ? H; nb_member H.
  all: simplify_eq; eexists _, _, _; split; [nb_elem|]; split; [nb_elem|]; done.
Qed.

End FurtherProperties.

(** ** The further properties at concrete inputs *)

Lemma teardown_targets_the_deployed_endpoint_witness :
  let run := @run_cells demo [@Deploy.deploy demo; @Deploy.cleanup demo] before_deploy in
  (exists e,
     log run.2 = log before_deploy ++ [ECall (VObj "TensorFlowModel" "1") "deploy" []
                             [("initial_instance_count", VInt 1);
                              ("instance_type", VStr "ml.m4.xlarge")] (Raise e)]
     /\ run.1 = Raise e)
  \/ (exists predictor r,
        log run.2 = log before_deploy ++ [ECall (VObj "TensorFlowModel" "1") "deploy" []
                                [("initial_instance_count", VInt 1);
                                 ("instance_type", VStr "ml.m4.xlarge")] (Ok predictor);
                              ECall predictor "delete_endpoint" [] [] r]).
Proof.
  apply (@teardown_targets_the_deployed_endpoint demo before_deploy).
  vm_compute; reflexivity.
Defined.

Lemma configure_again_uses_the_literal_witness :
  ns (MaskRCNN.configure example_operator before_configure).2 !! "docker_image"
    = Some (VStr ("123456789012" +:+ ".dkr.ecr." +:+ "us-west-2" +:+ ".amazonaws.com/"
                  +:+ "mask-rcnn-smdataparallel-sagemaker" +:+ ":" +:+ "pt1.8"))
  /\ ns (run_cells [MaskRCNN.configure example_operator;
                    MaskRCNN.configure example_operator] before_configure).2 !! "docker_image"
     = Some (VStr ("123456789012" +:+ ".dkr.ecr." +:+ "<REGION>" +:+ ".amazonaws.com/"
                   +:+ "mask-rcnn-smdataparallel-sagemaker" +:+ ":" +:+ "pt1.8")).
Proof.
  apply (@configure_again_uses_the_literal demo example_operator before_configure);
    vm_compute; reflexivity.
Defined.

Lemma bert_configure_again_is_stable_witness :
  ns (run_cells [BERT.configure example_operator; BERT.configure example_operator]
        before_configure_bert).2 !! "docker_image"
    = ns (BERT.configure example_operator before_configure_bert).2 !! "docker_image"
  /\ ns (BERT.configure example_operator before_configure_bert).2 !! "docker_image"
     = Some (VStr ("123456789012" +:+ ".dkr.ecr." +:+ "us-west-2" +:+ ".amazonaws.com/"
                   +:+ "mask-rcnn-smdataparallel-sagemaker" +:+ ":" +:+ "pt1.8"))
  /\ ns (BERT.configure example_operator before_configure_bert).2 !! "region"
     = Some (VStr "us-west-2").
Proof.
  apply (@bert_configure_again_is_stable demo example_operator before_configure_bert
           (VStr "123456789012") (VStr "us-west-2")
           (VStr "mask-rcnn-smdataparallel-sagemaker") (VStr "pt1.8"));
    vm_compute; reflexivity.
Defined.

Lemma estimator_cell_needs_its_names_witness :
  stops_on_missing_name before_configure (MaskRCNN.make_estimator before_configure)
  /\ stops_on_missing_name before_configure (BERT.make_estimator before_configure).
Proof.
  apply (@estimator_cell_needs_its_names demo before_configure "hyperparameters").
  - unfold estimator_reads. apply list_elem_of_In. vm_compute. auto 10.
  - vm_compute; reflexivity.
Defined.

Lemma role_name_is_the_split_role_witness :
  exists parts,
    ns (@MaskRCNN.session_setup demo (@fresh_kernel demo tt)).2 !! "role"
      = Some (VStr "arn:aws:iam::123456789012:role/service-role/Demo")
    /\ ns (@MaskRCNN.session_setup demo (@fresh_kernel demo tt)).2 !! "role_name"
       = Some (VList (map VStr parts))
    /\ parts <> []
    /\ py_join "/" parts = "arn:aws:iam::123456789012:role/service-role/Demo"
    /\ Forall (fun p => has_slash p = false) parts.
Proof.
  destruct (@role_name_is_the_split_role demo (@fresh_kernel demo tt))
    as (_ & evs & Hlog & Hrole).
  apply Hrole. cbn [fresh_kernel log app] in Hlog. rewrite <- Hlog.
  apply list_elem_of_In. vm_compute. auto 20.
Defined.

Lemma run_submits_whatever_the_shell_reports_witness :
  submits (@maskrcnn_run failing_shell example_operator tt)
  /\ submits (@bert_run failing_shell example_operator tt).
Proof.
  split.
  - apply (proj1 (@run_submits_whatever_the_shell_reports failing_shell example_operator tt)).
    vm_compute; reflexivity.
  - apply (proj2 (@run_submits_whatever_the_shell_reports failing_shell example_operator tt)).
    vm_compute; reflexivity.
Defined.


Lemma estimator_carries_session_and_network_witness :
  example_estimator ∈ log (@maskrcnn_run demo example_operator tt).2
  /\ exists session role,
       ENew "sagemaker.Session" [] [] (Ok session) ∈ log (@maskrcnn_run demo example_operator tt).2
       /\ EText None "get_execution_role" (Ok role) ∈ log (@maskrcnn_run demo example_operator tt).2
       /\ kw_get "sagemaker_session" example_descriptor = Some session
       /\ kw_get "role" example_descriptor = Some (VStr role)
       /\ kw_get "subnets" example_descriptor = Some (VList (map VStr ["subnet-0f9XXXX"]))
       /\ kw_get "security_group_ids" example_descriptor
          = Some (VList (map VStr ["sg-03ZZZZZZ"])).
Proof.
  assert (H : example_estimator ∈ log (@maskrcnn_run demo example_operator tt).2)
    by (apply list_elem_of_In; vm_compute; auto 40).
  split; [exact H|].
  exact (proj1 (@estimator_carries_session_and_network demo example_operator tt) _ _ _ H).
Defined.

Lemma bert_job_is_named_as_its_run_witness :
  example_bert_fit ∈ log (@bert_run demo example_operator tt).2
  /\ exists kw h name,
       ENew "TensorFlow" [] kw (Ok (VObj "TensorFlow" "1")) ∈ log (@bert_run demo example_operator tt).2
       /\ kw_get "hyperparameters" kw = Some (VDict h)
       /\ kw_get "run_name" h = Some name
       /\ kw_get "job_name"
            [("inputs", VDict [("train", VObj "FileSystemInput" "1")]);
             ("job_name", VStr "smdataparallel-bert-tf2-fsx-2p3dn")] = Some name.
Proof.
  assert (H : example_bert_fit ∈ log (@bert_run demo example_operator tt).2)
    by (apply list_elem_of_In; vm_compute; auto 40).
  split; [exact H|].
  exact (@bert_job_is_named_as_its_run demo tt example_operator _ _ _ _ H).
Defined.

Lemma teardown_is_of_the_model_deployed_witness :
  example_teardown ∈ log (@deploy_run demo tt).2
  /\ exists model kwm kwd,
       ENew "TensorFlowModel" [] kwm (Ok model) ∈ log (@deploy_run demo tt).2
       /\ ECall model "deploy" [] kwd (Ok (VObj "Predictor" "1")) ∈ log (@deploy_run demo tt).2
       /\ kw_get "initial_instance_count" kwd = Some (VInt 1)
       /\ kw_get "instance_type" kwd = Some (VStr "ml.m4.xlarge")
       /\ last (log (@deploy_run demo tt).2) = Some example_teardown.
Proof.
  assert (H : example_teardown ∈ log (@deploy_run demo tt).2)
    by (apply list_elem_of_In; vm_compute; auto 40).
  split; [exact H|].
  exact (@teardown_is_of_the_model_deployed demo tt _ _ _ _ H).
Defined.
